(** * Aztech adapter: device capability detection and polling

    A shallow embedding of [pkg/aztech_device.py]: the classes
    [AztechDevice], [AztechPlug] and [AztechBulb], which project a vendor
    status blob onto a typed set of gateway properties and keep those
    properties fresh with a polling loop.

    Python values are embedded as the inductive type [pyval]; dictionaries
    received from the vendor client are [gmap string pyval]; Python
    exceptions are an explicit error type threaded through the [result]
    monad; binary64 floats are [spec_float] with the Standard Library's
    IEEE-754 operations at precision 53. *)

From Stdlib Require Import ZArith String List Ascii Bool Lia.
From Stdlib Require Import Floats.SpecFloat.
From stdpp Require Import gmap strings list.

Set Warnings "-register-all".
Open Scope string_scope.
Open Scope list_scope.
Open Scope Z_scope.

(** ** Python values *)

Inductive pyval : Type :=
| VNone
| VBool (b : bool)
| VInt (z : Z)
| VFloat (f : spec_float)
| VStr (s : string)
| VList (l : list pyval)
| VDict (d : gmap string pyval).

(** The exceptions that the embedded code can raise or let through. *)
Inductive exn : Type :=
| KeyError
| IndexError
| TypeError
| ValueError
| AttributeError
| OverflowError
| ZeroDivisionError
| SmartDeviceException
| OSError.

Inductive result (A : Type) : Type :=
| Ok (a : A)
| Raise (e : exn).
Arguments Ok {A} a.
Arguments Raise {A} e.

#[global] Instance result_ret : MRet result := fun A a => Ok a.
#[global] Instance result_bind : MBind result := fun A B f m =>
  match m with
  | Ok a => f a
  | Raise e => Raise e
  end.

#[global] Instance result_fmap : FMap result := fun A B f m =>
  match m with
  | Ok a => Ok (f a)
  | Raise e => Raise e
  end.

#[global] Instance exn_eq_dec : EqDecision exn.
Proof. solve_decision. Defined.

(** ** Gateway data model *)

(** Modelled from the spec: the property class of [aztech_property.py] is not
    part of the sources; a property is its immutable identity (name and
    metadata dictionary) and its mutable current value. *)
Record property : Type := {
  prop_name : string;
  prop_description : gmap string pyval;
  prop_value : pyval
}.

(** A gateway device as [AztechDevice.__init__] leaves it.  [properties] is a
    Python dict, which iterates in insertion order, so it is kept as an
    association list. *)
Record device : Type := {
  _type : list string;
  index : Z;
  name : pyval;
  description : pyval;
  properties : list (string * property)
}.

(** The pyKyla device handle: what each vendor call answers at one point in
    time. *)
Record kyla_dev : Type := {
  sys_info : result pyval;
  get_emeter_realtime : result pyval;
  get_light_state : result pyval;
  valid_temperature_range : result pyval
}.

(** What the module imports and the sources do not contain: the vendor's
    feature token ([SmartDevice.FEATURE_ENERGY_METER]), Python's
    string-to-integer parser and the colour helper of [util.py]. *)
Class Externals : Type := {
  FEATURE_ENERGY_METER : string;
  int_of_str : string -> result Z;
  hsv_to_rgb : pyval -> pyval -> Z -> result pyval
}.

(** The [update] methods of [AztechPlugProperty] and [AztechBulbProperty]
    ([aztech_property.py], not part of the sources): given the owning device
    and the fresh snapshots, the refreshed property or an exception. *)
Class PropertyClasses : Type := {
  plug_update : device -> property -> pyval -> pyval -> result property;
  bulb_update : device -> property -> pyval -> pyval -> pyval -> result property
}.

(** ** Python built-ins used by the module *)

Module Py.

Definition prec : Z := 53.
Definition emax : Z := 1024.

(** [bool(v)] *)
Definition bool (v : pyval) : Datatypes.bool :=
  match v with
  | VNone => false
  | VBool b => b
  | VInt z => negb (z =? 0)
  | VFloat (S754_zero _) => false
  | VFloat _ => true
  | VStr s => negb (String.eqb s "")
  | VList l => match l with [] => false | _ => true end
  | VDict d => negb (Nat.eqb (size d) 0)
  end.

(** [v is not None] *)
Definition is_not_none (v : pyval) : Datatypes.bool :=
  match v with
  | VNone => false
  | _ => true
  end.

(** [bool] is a subclass of [int]. *)
Definition as_int (v : pyval) : option Z :=
  match v with
  | VBool b => Some (if b then 1 else 0)
  | VInt z => Some z
  | _ => None
  end.

(** [float(z)]: round to nearest even, [OverflowError] beyond the range. *)
Definition float_of_int (z : Z) : result spec_float :=
  match binary_normalize prec emax z 0 false with
  | S754_infinity _ => Raise OverflowError
  | f => Ok f
  end.

Definition as_float (v : pyval) : option (result spec_float) :=
  match v with
  | VFloat f => Some (Ok f)
  | _ => float_of_int <$> as_int v
  end.

Definition is_zero (f : spec_float) : Datatypes.bool :=
  match f with
  | S754_zero _ => true
  | _ => false
  end.

(** The correctly rounded quotient of two integers ([int / int]). *)
Definition int_truediv (a b : Z) : result pyval :=
  match a, b with
  | _, 0 => Raise ZeroDivisionError
  | 0, _ => Ok (VFloat (S754_zero (b <? 0)))
  | _, _ =>
      match SFdiv prec emax
              (S754_finite (a <? 0) (Z.to_pos (Z.abs a)) 0)
              (S754_finite (b <? 0) (Z.to_pos (Z.abs b)) 0) with
      | S754_infinity _ => Raise OverflowError
      | f => Ok (VFloat f)
      end
  end.

(** [a / b] *)
Definition truediv (a b : pyval) : result pyval :=
  match as_int a, as_int b with
  | Some x, Some y => int_truediv x y
  | _, _ =>
      match as_float a, as_float b with
      | Some ra, Some rb =>
          x ← ra; y ← rb;
          if is_zero y then Raise ZeroDivisionError
          else Ok (VFloat (SFdiv prec emax x y))
      | _, _ => Raise TypeError
      end
  end.

Fixpoint str_repeat (s : string) (n : nat) : string :=
  match n with
  | O => ""
  | S n' => s +:+ str_repeat s n'
  end.

Fixpoint list_repeat {A} (l : list A) (n : nat) : list A :=
  match n with
  | O => []
  | S n' => l ++ list_repeat l n'
  end.

(** [a * b]: product of numbers, repetition of a sequence. *)
Definition mul (a b : pyval) : result pyval :=
  match as_int a, as_int b with
  | Some x, Some y => Ok (VInt (x * y))
  | _, _ =>
      match as_float a, as_float b with
      | Some ra, Some rb =>
          x ← ra; y ← rb; Ok (VFloat (SFmul prec emax x y))
      | _, _ =>
          match a, as_int b, as_int a, b with
          | VStr s, Some n, _, _ => Ok (VStr (str_repeat s (Z.to_nat n)))
          | VList l, Some n, _, _ => Ok (VList (list_repeat l (Z.to_nat n)))
          | _, _, Some n, VStr s => Ok (VStr (str_repeat s (Z.to_nat n)))
          | _, _, Some n, VList l => Ok (VList (list_repeat l (Z.to_nat n)))
          | _, _, _, _ => Raise TypeError
          end
      end
  end.

(** [a - b] *)
Definition sub (a b : pyval) : result pyval :=
  match as_int a, as_int b with
  | Some x, Some y => Ok (VInt (x - y))
  | _, _ =>
      match as_float a, as_float b with
      | Some ra, Some rb =>
          x ← ra; y ← rb; Ok (VFloat (SFsub prec emax x y))
      | _, _ => Raise TypeError
      end
  end.

(** Truncation of a finite float towards zero. *)
Definition trunc (s : Datatypes.bool) (m : positive) (e : Z) : Z :=
  let mag := if 0 <=? e then Z.shiftl (Z.pos m) e
             else Z.shiftr (Z.pos m) (- e) in
  if s then - mag else mag.

(** [int(v)] *)
Definition int `{Externals} (v : pyval) : result Z :=
  match v with
  | VBool b => Ok (if b then 1 else 0)
  | VInt z => Ok z
  | VFloat (S754_zero _) => Ok 0
  | VFloat (S754_finite s m e) => Ok (trunc s m e)
  | VFloat (S754_infinity _) => Raise OverflowError
  | VFloat S754_nan => Raise ValueError
  | VStr s => int_of_str s
  | VNone | VList _ | VDict _ => Raise TypeError
  end.

(** [v[k]] for a string key. *)
Definition getitem (v : pyval) (k : string) : result pyval :=
  match v with
  | VDict d =>
      match d !! k with
      | Some x => Ok x
      | None => Raise KeyError
      end
  | _ => Raise TypeError
  end.

Fixpoint str_get (s : string) (n : nat) : option ascii :=
  match s, n with
  | EmptyString, _ => None
  | String c _, O => Some c
  | String _ s', S n' => str_get s' n'
  end.

(** [v[i]] for an integer index; a negative index counts from the end. *)
Definition getindex (v : pyval) (i : Z) : result pyval :=
  match v with
  | VList l =>
      let j := if i <? 0 then i + Z.of_nat (List.length l) else i in
      if j <? 0 then Raise IndexError
      else match l !! Z.to_nat j with
           | Some x => Ok x
           | None => Raise IndexError
           end
  | VStr s =>
      let j := if i <? 0 then i + Z.of_nat (String.length s) else i in
      if j <? 0 then Raise IndexError
      else match str_get s (Z.to_nat j) with
           | Some c => Ok (VStr (String c ""))
           | None => Raise IndexError
           end
  | VDict _ => Raise KeyError
  | _ => Raise TypeError
  end.

Fixpoint startswith (p s : string) : Datatypes.bool :=
  match p, s with
  | EmptyString, _ => true
  | String a p', String b s' => Ascii.eqb a b && startswith p' s'
  | String _ _, EmptyString => false
  end.

(** [needle in s] for two strings. *)
Fixpoint str_contains (needle s : string) : Datatypes.bool :=
  startswith needle s ||
  match s with
  | EmptyString => false
  | String _ s' => str_contains needle s'
  end.

(** [needle in v] for a string needle: substring of a string, element of
    a list, key of a dictionary. *)
Definition contains (v : pyval) (needle : string) : result Datatypes.bool :=
  match v with
  | VStr s => Ok (str_contains needle s)
  | VList l =>
      Ok (existsb (fun x => match x with
                            | VStr t => String.eqb needle t
                            | _ => false
                            end) l)
  | VDict d => Ok (bool_decide (is_Some (d !! needle)))
  | _ => Raise TypeError
  end.

(** [s.split(sep)] for a one-character separator. *)
Fixpoint str_split (sep : ascii) (s : string) : list string :=
  match s with
  | EmptyString => [""]
  | String c s' =>
      if Ascii.eqb c sep then "" :: str_split sep s'
      else match str_split sep s' with
           | [] => [String c ""]
           | x :: xs => String c x :: xs
           end
  end.

(** [v.split(':')]: only strings have the method. *)
Definition split_colon (v : pyval) : result (list string) :=
  match v with
  | VStr s => Ok (str_split ":" s)
  | _ => Raise AttributeError
  end.

End Py.

(** ** Shared helpers on the device record *)

(** [self._type.append(t)] *)
Definition type_append (t : string) (dev : device) : device :=
  {| _type := _type dev ++ [t]; index := index dev; name := name dev;
     description := description dev; properties := properties dev |}.

(** [d[k] = v] on an insertion-ordered dictionary. *)
Fixpoint dict_set {A} (k : string) (v : A) (l : list (string * A))
  : list (string * A) :=
  match l with
  | [] => [(k, v)]
  | (k', v') :: l' =>
      if String.eqb k k' then (k, v) :: l' else (k', v') :: dict_set k v l'
  end.

Fixpoint dict_get {A} (k : string) (l : list (string * A)) : option A :=
  match l with
  | [] => None
  | (k', v') :: l' => if String.eqb k k' then Some v' else dict_get k l'
  end.

(** [self.properties[k] = Property(self, k, description, value)] *)
Definition set_property (k : string) (descr : gmap string pyval)
    (value : pyval) (dev : device) : device :=
  {| _type := _type dev; index := index dev; name := name dev;
     description := description dev;
     properties :=
       dict_set k {| prop_name := k; prop_description := descr;
                     prop_value := value |} (properties dev) |}.

Definition _POLL_INTERVAL : Z := 5.

(** ** class AztechDevice *)

Module AztechDevice.

(** [__init__]; the polling thread it starts is modelled by [poll] of the
    subclasses. *)
Definition __init__ (kd : kyla_dev) (index : Z) : result device :=
  si ← sys_info kd;
  description ← Py.getitem si "model";
  name ← (if 0 <=? index then
            si ← sys_info kd;
            children ← Py.getitem si "children";
            child ← Py.getindex children index;
            Py.getitem child "alias"
          else
            si ← sys_info kd;
            Py.getitem si "alias");
  Ok {| _type := []; index := index;
        name := if negb (Py.bool name) then description else name;
        description := description; properties := [] |}.

Definition power (emeter : pyval) : result pyval :=
  has ← Py.contains emeter "power";
  if has : bool then Py.getitem emeter "power"
  else
    has_m ← Py.contains emeter "power_mw";
    if has_m : bool then
      v ← Py.getitem emeter "power_mw"; Py.truediv v (VInt 1000)
    else Ok VNone.

Definition voltage (emeter : pyval) : result pyval :=
  has ← Py.contains emeter "voltage";
  if has : bool then Py.getitem emeter "voltage"
  else
    has_m ← Py.contains emeter "voltage_mv";
    if has_m : bool then
      v ← Py.getitem emeter "voltage_mv"; Py.truediv v (VInt 1000)
    else Ok VNone.

Definition current (emeter : pyval) : result pyval :=
  has ← Py.contains emeter "current";
  if has : bool then Py.getitem emeter "current"
  else
    has_m ← Py.contains emeter "current_ma";
    if has_m : bool then
      v ← Py.getitem emeter "current_ma"; Py.truediv v (VInt 1000)
    else Ok VNone.

End AztechDevice.

(** The metadata dictionaries of the energy properties, shared by both
    device classes. *)
Definition power_description : gmap string pyval :=
  {[ "@type" := VStr "InstantaneousPowerProperty"; "title" := VStr "Power";
     "type" := VStr "number"; "unit" := VStr "watt" ]}.

Definition voltage_description : gmap string pyval :=
  {[ "@type" := VStr "VoltageProperty"; "title" := VStr "Voltage";
     "type" := VStr "number"; "unit" := VStr "volt" ]}.

Definition current_description : gmap string pyval :=
  {[ "@type" := VStr "CurrentProperty"; "title" := VStr "Current";
     "type" := VStr "number"; "unit" := VStr "ampere" ]}.

Definition on_description : gmap string pyval :=
  {[ "@type" := VStr "OnOffProperty"; "title" := VStr "On/Off";
     "type" := VStr "boolean" ]}.

(** ** The polling loop, common shape *)

Inductive event : Type :=
| EvSleep (t : Z)
| EvSysInfo
| EvEmeter
| EvLightState
| EvUpdate (prop : string).

(** How one pass through the body of [while True] ends: it reaches the next
    iteration, or an exception leaves [poll] and ends the thread. *)
Inductive cycle_end : Type :=
| NextCycle
| Escaped (e : exn).

(** [except SmartDeviceException: continue] *)
Definition handler (e : exn) : cycle_end :=
  match e with
  | SmartDeviceException => NextCycle
  | _ => Escaped e
  end.

(** [for prop in self.properties.values(): prop.update(...)]: the properties
    are refreshed in order; an exception stops the loop and leaves the
    earlier refreshes in place. *)
Fixpoint update_all (upd : device -> property -> result property)
    (dev : device) (todo : list (string * property))
  : device * list event * option exn :=
  match todo with
  | [] => (dev, [], None)
  | (k, p) :: rest =>
      match upd dev p with
      | Raise e => (dev, [EvUpdate k], Some e)
      | Ok p' =>
          let dev' :=
            {| _type := _type dev; index := index dev; name := name dev;
               description := description dev;
               properties := dict_set k p' (properties dev) |} in
          let '(dev'', tr, r) := update_all upd dev' rest in
          (dev'', EvUpdate k :: tr, r)
      end
  end.

(** The loop itself: one vendor answer per iteration.  The list of answers
    bounds how far the loop is run; [None] means it is still running when
    the answers are used up, [Some e] that exception [e] ended it. *)
Fixpoint poll_loop (cycle : kyla_dev -> device -> device * list event * cycle_end)
    (answers : list kyla_dev) (dev : device)
  : device * list event * option exn :=
  match answers with
  | [] => (dev, [], None)
  | kd :: rest =>
      match cycle kd dev with
      | (dev', tr, NextCycle) =>
          let '(dev'', tr', r) := poll_loop cycle rest dev' in
          (dev'', tr ++ tr', r)
      | (dev', tr, Escaped e) => (dev', tr, Some e)
      end
  end.

(** ** class AztechPlug *)

Module AztechPlug.
Section WithExternals.
Context `{Externals}.

Definition has_emeter (sysinfo : pyval) : result bool :=
  feature ← Py.getitem sysinfo "feature";
  features ← Py.split_colon feature;
  Ok (bool_decide (FEATURE_ENERGY_METER ∈ features)).

Definition is_on (index : Z) (sysinfo : pyval) : result bool :=
  if 0 <=? index then
    children ← Py.getitem sysinfo "children";
    child ← Py.getindex children index;
    state ← Py.getitem child "state";
    Ok (Py.bool state)
  else
    relay_state ← Py.getitem sysinfo "relay_state";
    Ok (Py.bool relay_state).

Definition is_led_on (sysinfo : pyval) : result bool :=
  led_off ← Py.getitem sysinfo "led_off";
  d ← Py.sub (VInt 1) led_off;
  Ok (Py.bool d).

Definition is_dimmable (sysinfo : pyval) : result bool :=
  Py.contains sysinfo "brightness".

Definition brightness (sysinfo : pyval) : result Z :=
  b ← Py.getitem sysinfo "brightness";
  Py.int b.

Definition level_description : gmap string pyval :=
  {[ "@type" := VStr "LevelProperty"; "title" := VStr "Level";
     "type" := VStr "integer"; "unit" := VStr "percent";
     "minimum" := VInt 0; "maximum" := VInt 100 ]}.

Definition led_description : gmap string pyval :=
  {[ "title" := VStr "LED On/Off"; "type" := VStr "boolean" ]}.

(** The energy block of [__init__], entered when [has_emeter] holds. *)
Definition init_emeter (kd : kyla_dev) (dev : device) : result device :=
  emeter ← get_emeter_realtime kd;
  power ← AztechDevice.power emeter;
  let dev :=
    if Py.is_not_none power then
      set_property "instantaneousPower" power_description power
        (type_append "EnergyMonitor" dev)
    else dev in
  voltage ← AztechDevice.voltage emeter;
  let dev :=
    if Py.is_not_none voltage then
      set_property "voltage" voltage_description voltage dev
    else dev in
  current ← AztechDevice.current emeter;
  let dev :=
    if Py.is_not_none current then
      set_property "current" current_description current dev
    else dev in
  Ok dev.

Definition __init__ (kd : kyla_dev) (idx : Z) : result device :=
  dev ← AztechDevice.__init__ kd idx;
  let dev := type_append "OnOffSwitch" dev in
  sysinfo ← sys_info kd;
  has_name ← Py.contains sysinfo "dev_name";
  is_plug ← (if negb has_name then Ok true
             else
               dev_name ← Py.getitem sysinfo "dev_name";
               is_switch ← Py.contains dev_name "Light Switch";
               Ok (negb is_switch));
  let dev := if is_plug : bool then type_append "SmartPlug" dev else dev in
  emeter_present ← has_emeter sysinfo;
  dev ← (if emeter_present : bool then init_emeter kd dev else Ok dev);
  dimmable ← is_dimmable sysinfo;
  dev ← (if dimmable : bool then
           level ← brightness sysinfo;
           Ok (set_property "level" level_description (VInt level)
                 (type_append "MultiLevelSwitch" dev))
         else Ok dev);
  on ← is_on (index dev) sysinfo;
  let dev := set_property "on" on_description (VBool on) dev in
  led ← is_led_on sysinfo;
  Ok (set_property "led-on" led_description (VBool led) dev).

Context `{PropertyClasses}.

(** One pass through the body of [while True] in [poll]. *)
Definition poll_cycle (kd : kyla_dev) (dev : device)
  : device * list event * cycle_end :=
  let tr0 := [EvSleep _POLL_INTERVAL; EvSysInfo] in
  match sys_info kd with
  | Raise e => (dev, tr0, handler e)
  | Ok VNone => (dev, tr0, NextCycle)
  | Ok sysinfo =>
      match has_emeter sysinfo with
      | Raise e => (dev, tr0, handler e)
      | Ok false =>
          let '(dev', tr, r) :=
            update_all (fun d p => plug_update d p sysinfo VNone)
              dev (properties dev) in
          (dev', tr0 ++ tr, from_option handler NextCycle r)
      | Ok true =>
          match get_emeter_realtime kd with
          | Raise e => (dev, tr0 ++ [EvEmeter], handler e)
          | Ok emeter =>
              let '(dev', tr, r) :=
                update_all (fun d p => plug_update d p sysinfo emeter)
                  dev (properties dev) in
              (dev', tr0 ++ [EvEmeter] ++ tr,
               from_option handler NextCycle r)
          end
      end
  end.

Definition poll : list kyla_dev -> device -> device * list event * option exn :=
  poll_loop poll_cycle.

End WithExternals.
End AztechPlug.

(** ** class AztechBulb *)

Module AztechBulb.
Section WithExternals.
Context `{Externals}.

Definition is_dimmable (sysinfo : pyval) : result bool :=
  v ← Py.getitem sysinfo "is_dimmable"; Ok (Py.bool v).

Definition is_color (sysinfo : pyval) : result bool :=
  v ← Py.getitem sysinfo "is_color"; Ok (Py.bool v).

Definition is_variable_color_temp (sysinfo : pyval) : result bool :=
  v ← Py.getitem sysinfo "is_variable_color_temp"; Ok (Py.bool v).

Definition is_on (light_state : pyval) : result bool :=
  v ← Py.getitem light_state "on_off"; Ok (Py.bool v).

Definition color_temp (light_state : pyval) : result Z :=
  on ← is_on light_state;
  light_state ← (if negb on then Py.getitem light_state "dft_on_state"
                 else Ok light_state);
  v ← Py.getitem light_state "color_temp";
  Py.int v.

Definition color_mode (light_state : pyval) : result string :=
  on ← is_on light_state;
  light_state ← (if negb on then Py.getitem light_state "dft_on_state"
                 else Ok light_state);
  v ← Py.getitem light_state "color_temp";
  t ← Py.int v;
  if t =? 0 then Ok "color" else Ok "temperature".

Definition hsv (light_state : pyval) : result (pyval * pyval * Z) :=
  on ← is_on light_state;
  light_state ← (if negb on then Py.getitem light_state "dft_on_state"
                 else Ok light_state);
  hue ← Py.getitem light_state "hue";
  saturation ← Py.getitem light_state "saturation";
  b ← Py.getitem light_state "brightness";
  scaled ← Py.mul b (VInt 255);
  q ← Py.truediv scaled (VInt 100);
  value ← Py.int q;
  Ok (hue, saturation, value).

Definition brightness (light_state : pyval) : result Z :=
  on ← is_on light_state;
  light_state ← (if negb on then Py.getitem light_state "dft_on_state"
                 else Ok light_state);
  v ← Py.getitem light_state "brightness";
  Py.int v.

Definition color_description : gmap string pyval :=
  {[ "@type" := VStr "ColorProperty"; "title" := VStr "Color";
     "type" := VStr "string" ]}.

Definition color_temperature_description (lo hi : pyval)
  : gmap string pyval :=
  {[ "@type" := VStr "ColorTemperatureProperty";
     "title" := VStr "Color Temperature"; "type" := VStr "integer";
     "unit" := VStr "kelvin"; "minimum" := lo; "maximum" := hi ]}.

Definition color_mode_description : gmap string pyval :=
  {[ "@type" := VStr "ColorModeProperty"; "title" := VStr "Color Mode";
     "type" := VStr "string";
     "enum" := VList [VStr "color"; VStr "temperature"];
     "readOnly" := VBool true ]}.

Definition level_description : gmap string pyval :=
  {[ "@type" := VStr "BrightnessProperty"; "title" := VStr "Brightness";
     "type" := VStr "integer"; "unit" := VStr "percent";
     "minimum" := VInt 0; "maximum" := VInt 100 ]}.

(** The colour block of [__init__]. *)
Definition init_color (state : pyval) (dev : device) : result device :=
  let dev := type_append "ColorControl" dev in
  '(h, s, v) ← hsv state;
  rgb ← hsv_to_rgb h s v;
  Ok (set_property "color" color_description rgb dev).

(** The colour-temperature block of [__init__]. *)
Definition init_color_temp (kd : kyla_dev) (state : pyval) (dev : device)
  : result device :=
  let dev :=
    if negb (bool_decide ("ColorControl" ∈ _type dev))
    then type_append "ColorControl" dev else dev in
  temp_range ← valid_temperature_range kd;
  lo ← Py.getindex temp_range 0;
  hi ← Py.getindex temp_range 1;
  t ← color_temp state;
  Ok (set_property "colorTemperature"
        (color_temperature_description lo hi) (VInt t) dev).

(** The energy block of [__init__]; bulbs enter it unconditionally. *)
Definition init_emeter (kd : kyla_dev) (dev : device) : result device :=
  emeter ← get_emeter_realtime kd;
  power ← AztechDevice.power emeter;
  let dev :=
    if Py.is_not_none power then
      set_property "instantaneousPower" power_description power
        (type_append "EnergyMonitor" dev)
    else dev in
  voltage ← AztechDevice.voltage emeter;
  let dev :=
    if Py.is_not_none voltage then
      set_property "voltage" voltage_description voltage dev
    else dev in
  current ← AztechDevice.current emeter;
  let dev :=
    if Py.is_not_none current then
      set_property "current" current_description current dev
    else dev in
  Ok dev.

Definition __init__ (kd : kyla_dev) (idx : Z) : result device :=
  dev ← AztechDevice.__init__ kd idx;
  let dev := type_append "Light" (type_append "OnOffSwitch" dev) in
  state ← get_light_state kd;
  sysinfo ← sys_info kd;
  color ← is_color sysinfo;
  dev ← (if color : bool then init_color state dev else Ok dev);
  variable ← is_variable_color_temp sysinfo;
  dev ← (if variable : bool then init_color_temp kd state dev else Ok dev);
  color ← is_color sysinfo;
  both ← (if color : bool then is_variable_color_temp sysinfo else Ok false);
  dev ← (if both : bool then
           mode ← color_mode state;
           Ok (set_property "colorMode" color_mode_description
                 (VStr mode) dev)
         else Ok dev);
  dimmable ← is_dimmable sysinfo;
  dev ← (if dimmable : bool then
           level ← brightness state;
           Ok (set_property "level" level_description (VInt level) dev)
         else Ok dev);
  dev ← init_emeter kd dev;
  on ← is_on state;
  Ok (set_property "on" on_description (VBool on) dev).

Context `{PropertyClasses}.

(** One pass through the body of [while True] in [poll]. *)
Definition poll_cycle (kd : kyla_dev) (dev : device)
  : device * list event * cycle_end :=
  let tr0 := [EvSleep _POLL_INTERVAL; EvSysInfo] in
  match sys_info kd with
  | Raise e => (dev, tr0, handler e)
  | Ok VNone => (dev, tr0, NextCycle)
  | Ok sysinfo =>
      match get_emeter_realtime kd with
      | Raise e => (dev, tr0 ++ [EvEmeter], handler e)
      | Ok emeter =>
          match get_light_state kd with
          | Raise e => (dev, tr0 ++ [EvEmeter; EvLightState], handler e)
          | Ok state =>
              let '(dev', tr, r) :=
                update_all (fun d p => bulb_update d p sysinfo state emeter)
                  dev (properties dev) in
              (dev', tr0 ++ [EvEmeter; EvLightState] ++ tr,
               from_option handler NextCycle r)
          end
      end
  end.

Definition poll : list kyla_dev -> device -> device * list event * option exn :=
  poll_loop poll_cycle.

End WithExternals.
End AztechBulb.

(** ** A reference environment

    Concrete stand-ins for what the module imports, used to run the
    embedding on examples. *)

Module Reference.

(** [str.isspace] on an ASCII character. *)
Definition is_space (c : ascii) : bool :=
  let n := Z.of_nat (nat_of_ascii c) in
  ((9 <=? n) && (n <=? 13)) || ((28 <=? n) && (n <=? 32)).

Fixpoint lstrip (s : string) : string :=
  match s with
  | EmptyString => EmptyString
  | String c s' => if is_space c then lstrip s' else s
  end.

Fixpoint rstrip (s : string) : string :=
  match s with
  | EmptyString => EmptyString
  | String c s' =>
      match rstrip s' with
      | EmptyString => if is_space c then EmptyString else String c EmptyString
      | t => String c t
      end
  end.

(** Decimal digits, with single underscores between digits;
    [after_digit] tells whether the character before was a digit. *)
Fixpoint digits (s : string) (acc : Z) (after_digit : bool) : option Z :=
  match s with
  | EmptyString => if after_digit then Some acc else None
  | String c s' =>
      let n := Z.of_nat (nat_of_ascii c) in
      if (48 <=? n) && (n <=? 57) then digits s' (10 * acc + (n - 48)) true
      else if (n =? 95) && after_digit then digits s' acc false
      else None
  end.

(** Python's [int(s)] on an ASCII string: surrounding whitespace is
    dropped; what remains is an optional sign followed by decimal digits,
    where single underscores may stand between digits; anything else raises
    [ValueError].  Digits and spaces outside ASCII are rejected. *)
Definition parse_decimal (s : string) : result Z :=
  let r :=
    match rstrip (lstrip s) with
    | String "-" t => Z.opp <$> digits t 0 false
    | String "+" t => digits t 0 false
    | t => digits t 0 false
    end in
  from_option Ok (Raise ValueError) r.

Definition hex_digit (n : Z) : ascii :=
  ascii_of_nat (Z.to_nat (if n <? 10 then 48 + n else 87 + n)).

Definition hex2 (n : Z) : string :=
  String (hex_digit (n / 16 mod 16)) (String (hex_digit (n mod 16)) "").

(** Modelled from the spec: [hsv_to_rgb] of [util.py], which is not part of
    the sources.  Hue in [0,360), saturation in [0,100], value in [0,255];
    the standard conversion over six sectors of 60 degrees, each channel
    truncated to an integer and written as two hexadecimal digits. *)
Definition hsv_to_rgb_model (hue saturation : pyval) (v : Z) : result pyval :=
  match Py.as_int hue, Py.as_int saturation with
  | Some h, Some s =>
      let f := h mod 60 in
      let p := v * (100 - s) / 100 in
      let q := v * (6000 - f * s) / 6000 in
      let t := v * (6000 - (60 - f) * s) / 6000 in
      let '(r, g, b) :=
        match h / 60 mod 6 with
        | 0 => (v, t, p)
        | 1 => (q, v, p)
        | 2 => (p, v, t)
        | 3 => (p, q, v)
        | 4 => (t, p, v)
        | _ => (v, p, q)
        end in
      Ok (VStr ("#" +:+ hex2 r +:+ hex2 g +:+ hex2 b))
  | _, _ => Raise TypeError
  end.

#[local] Instance externals : Externals := {|
  FEATURE_ENERGY_METER := "ENE";
  int_of_str := parse_decimal;
  hsv_to_rgb := hsv_to_rgb_model
|}.

Definition with_value (p : property) (v : pyval) : property :=
  {| prop_name := prop_name p; prop_description := prop_description p;
     prop_value := v |}.

(** Modelled from the spec: [AztechPlugProperty.update] of
    [aztech_property.py], which is not part of the sources.  The value is
    recomputed with the derivation used at construction time and stored. *)
Definition plug_update_model (dev : device) (p : property)
    (sysinfo emeter : pyval) : result property :=
  let k := prop_name p in
  if String.eqb k "on" then
    b ← AztechPlug.is_on (index dev) sysinfo; Ok (with_value p (VBool b))
  else if String.eqb k "led-on" then
    b ← AztechPlug.is_led_on sysinfo; Ok (with_value p (VBool b))
  else if String.eqb k "level" then
    z ← AztechPlug.brightness sysinfo; Ok (with_value p (VInt z))
  else if String.eqb k "instantaneousPower" then
    with_value p <$> AztechDevice.power emeter
  else if String.eqb k "voltage" then
    with_value p <$> AztechDevice.voltage emeter
  else if String.eqb k "current" then
    with_value p <$> AztechDevice.current emeter
  else Ok p.

(** Modelled from the spec: [AztechBulbProperty.update] of
    [aztech_property.py], which is not part of the sources. *)
Definition bulb_update_model (dev : device) (p : property)
    (sysinfo state emeter : pyval) : result property :=
  let k := prop_name p in
  if String.eqb k "on" then
    b ← AztechBulb.is_on state; Ok (with_value p (VBool b))
  else if String.eqb k "color" then
    '(h, s, v) ← AztechBulb.hsv state;
    with_value p <$> hsv_to_rgb h s v
  else if String.eqb k "colorTemperature" then
    z ← AztechBulb.color_temp state; Ok (with_value p (VInt z))
  else if String.eqb k "colorMode" then
    m ← AztechBulb.color_mode state; Ok (with_value p (VStr m))
  else if String.eqb k "level" then
    z ← AztechBulb.brightness state; Ok (with_value p (VInt z))
  else if String.eqb k "instantaneousPower" then
    with_value p <$> AztechDevice.power emeter
  else if String.eqb k "voltage" then
    with_value p <$> AztechDevice.voltage emeter
  else if String.eqb k "current" then
    with_value p <$> AztechDevice.current emeter
  else Ok p.

#[local] Instance property_classes : PropertyClasses := {|
  plug_update := plug_update_model;
  bulb_update := bulb_update_model
|}.

(** A single-outlet plug with an energy meter. *)
Definition plug_sysinfo : gmap string pyval :=
  {[ "model" := VStr "HS110(EU)"; "alias" := VStr "Kettle";
     "dev_name" := VStr "Wi-Fi Smart Plug With Energy Monitoring";
     "feature" := VStr "TIM:ENE"; "relay_state" := VInt 1;
     "led_off" := VInt 0 ]}.

Definition plug_emeter : gmap string pyval :=
  {[ "power_mw" := VInt 2000; "voltage_mv" := VInt 230500 ]}.

Definition plug_handle : kyla_dev :=
  {| sys_info := Ok (VDict plug_sysinfo);
     get_emeter_realtime := Ok (VDict plug_emeter);
     get_light_state := Raise SmartDeviceException;
     valid_temperature_range := Raise SmartDeviceException |}.

Definition built (r : result device) : device :=
  match r with
  | Ok dev => dev
  | Raise _ =>
      {| _type := []; index := 0; name := VNone; description := VNone;
         properties := [] |}
  end.

Definition plug_device : device := built (AztechPlug.__init__ plug_handle (-1)).

(** The same plug with a meter that reports no power reading. *)
Definition powerless_handle : kyla_dev :=
  {| sys_info := Ok (VDict plug_sysinfo);
     get_emeter_realtime := Ok (VDict {[ "voltage_mv" := VInt 230500 ]});
     get_light_state := Raise SmartDeviceException;
     valid_temperature_range := Raise SmartDeviceException |}.

(** A wall switch that shares the relay firmware. *)
Definition switch_sysinfo : gmap string pyval :=
  {[ "model" := VStr "HS200(US)"; "alias" := VStr "Porch";
     "dev_name" := VStr "Wi-Fi Smart Light Switch"; "feature" := VStr "TIM";
     "relay_state" := VInt 0; "led_off" := VInt 0 ]}.

Definition switch_handle : kyla_dev :=
  {| sys_info := Ok (VDict switch_sysinfo);
     get_emeter_realtime := Raise SmartDeviceException;
     get_light_state := Raise SmartDeviceException;
     valid_temperature_range := Raise SmartDeviceException |}.

Definition switch_device : device := built (AztechPlug.__init__ switch_handle (-1)).

(** The switch, switched on, answering with a status that has lost its
    [led_off] field. *)
Definition ledless_sysinfo : gmap string pyval :=
  <[ "relay_state" := VInt 1 ]> (delete "led_off" switch_sysinfo).

Definition ledless_handle : kyla_dev :=
  {| sys_info := Ok (VDict ledless_sysinfo);
     get_emeter_realtime := Raise SmartDeviceException;
     get_light_state := Raise SmartDeviceException;
     valid_temperature_range := Raise SmartDeviceException |}.

(** A power strip with two outlets, the second one switched on. *)
Definition strip_sysinfo : gmap string pyval :=
  {[ "model" := VStr "HS107(US)"; "alias" := VStr "Strip";
     "feature" := VStr "TIM"; "led_off" := VInt 1;
     "children" :=
       VList [ VDict {[ "alias" := VStr "Lamp"; "state" := VInt 0 ]};
               VDict {[ "alias" := VStr "Fan"; "state" := VInt 1 ]} ] ]}.

Definition strip_handle : kyla_dev :=
  {| sys_info := Ok (VDict strip_sysinfo);
     get_emeter_realtime := Raise SmartDeviceException;
     get_light_state := Raise SmartDeviceException;
     valid_temperature_range := Raise SmartDeviceException |}.

Definition strip_device : device := built (AztechPlug.__init__ strip_handle 1).

(** A wall dimmer. *)
Definition dimmer_sysinfo : gmap string pyval :=
  {[ "model" := VStr "HS220(US)"; "alias" := VStr "Hall";
     "dev_name" := VStr "Wi-Fi Smart Dimmer"; "feature" := VStr "TIM";
     "relay_state" := VInt 1; "led_off" := VInt 0;
     "brightness" := VInt 75 ]}.

Definition dimmer_handle : kyla_dev :=
  {| sys_info := Ok (VDict dimmer_sysinfo);
     get_emeter_realtime := Raise SmartDeviceException;
     get_light_state := Raise SmartDeviceException;
     valid_temperature_range := Raise SmartDeviceException |}.

Definition dimmer_device : device := built (AztechPlug.__init__ dimmer_handle (-1)).

(** A colour bulb with tunable white, switched off. *)
Definition bulb_sysinfo : gmap string pyval :=
  {[ "model" := VStr "LB130(EU)"; "alias" := VStr "Desk";
     "is_dimmable" := VInt 1; "is_color" := VInt 1;
     "is_variable_color_temp" := VInt 1 ]}.

Definition bulb_state : gmap string pyval :=
  {[ "on_off" := VInt 0;
     "dft_on_state" :=
       VDict {[ "hue" := VInt 120; "saturation" := VInt 50;
                "brightness" := VInt 80; "color_temp" := VInt 0 ]} ]}.

Definition bulb_handle : kyla_dev :=
  {| sys_info := Ok (VDict bulb_sysinfo);
     get_emeter_realtime := Ok (VDict {[ "power_mw" := VInt 10800 ]});
     get_light_state := Ok (VDict bulb_state);
     valid_temperature_range := Ok (VList [VInt 2500; VInt 9000]) |}.

Definition bulb_device : device := built (AztechBulb.__init__ bulb_handle (-1)).

(** A poll answer whose status fetch raises the communication error. *)
Definition unreachable_handle : kyla_dev :=
  {| sys_info := Raise SmartDeviceException;
     get_emeter_realtime := Raise SmartDeviceException;
     get_light_state := Raise SmartDeviceException;
     valid_temperature_range := Raise SmartDeviceException |}.

End Reference.

(** ** Vocabulary of the specification *)

(** [sep.join(l)] *)
Fixpoint str_join (sep : ascii) (l : list string) : string :=
  match l with
  | [] => ""
  | [x] => x
  | x :: rest => x +:+ String sep (str_join sep rest)
  end.

(** The float [f] is exactly the fraction [num / den]. *)
Definition float_is (f : spec_float) (num den : Z) : Prop :=
  match f with
  | S754_zero _ => num = 0
  | S754_finite s m e =>
      let sm := if s then Z.neg m else Z.pos m in
      if 0 <=? e then sm * 2 ^ e * den = num
      else sm * den = num * 2 ^ (- e)
  | _ => False
  end.

(** An energy reading as the specification words it: the base-unit key as
    it is, else the milli-unit key divided by 1000, else absent. *)
Definition reading (base milli : string) (d : gmap string pyval)
  : result pyval :=
  match d !! base with
  | Some v => Ok v
  | None =>
      match d !! milli with
      | Some v => Py.truediv v (VInt 1000)
      | None => Ok VNone
      end
  end.

(** The state flag of the outlet selected by a non-negative index,
    [status.children[index].state]; the relay flag of the device itself
    otherwise. *)
Definition state_flag (idx : Z) (d : gmap string pyval) : option pyval :=
  if 0 <=? idx then
    match d !! "children" with
    | Some (VList children) =>
        match children !! Z.to_nat idx with
        | Some (VDict child) => child !! "state"
        | _ => None
        end
    | _ => None
    end
  else d !! "relay_state".

(** A property as the constructors store it. *)
Definition stored (k : string) (descr : gmap string pyval) (v : pyval)
  : property :=
  {| prop_name := k; prop_description := descr; prop_value := v |}.

(** What the energy block of a constructor leaves behind, given the three
    readings. *)
Record energy_block (p v c : pyval) (dev dev' : device) : Prop := {
  energy_index : index dev' = index dev;
  energy_type :
    _type dev' = _type dev ++ (if Py.is_not_none p then ["EnergyMonitor"] else []);
  energy_power :
    dict_get "instantaneousPower" (properties dev') =
    if Py.is_not_none p
    then Some (stored "instantaneousPower" power_description p)
    else dict_get "instantaneousPower" (properties dev);
  energy_voltage :
    dict_get "voltage" (properties dev') =
    if Py.is_not_none v then Some (stored "voltage" voltage_description v)
    else dict_get "voltage" (properties dev);
  energy_current :
    dict_get "current" (properties dev') =
    if Py.is_not_none c then Some (stored "current" current_description c)
    else dict_get "current" (properties dev);
  energy_other :
    forall k, k <> "instantaneousPower" -> k <> "voltage" -> k <> "current" ->
              dict_get k (properties dev') = dict_get k (properties dev)
}.

(** The decision of [AztechPlug.__init__] on the plug tag:
    ['dev_name' not in sysinfo or 'Light Switch' not in sysinfo['dev_name']]. *)
Definition plug_tag_decision (sysinfo : pyval) : result bool :=
  has_name ← Py.contains sysinfo "dev_name";
  if negb has_name then Ok true
  else
    dev_name ← Py.getitem sysinfo "dev_name";
    is_switch ← Py.contains dev_name "Light Switch";
    Ok (negb is_switch).

(** What [AztechPlug.__init__] builds, given the outcome of each of its
    decisions: the relay is a plug, the three energy readings ([None] when
    there is no reading or no meter), the dimmer level when there is one,
    and the two switch states. *)
Record plug_built (is_plug : bool) (p v c : pyval) (level : option Z)
    (on led : bool) (idx : Z) (dev : device) : Prop := {
  plug_index : index dev = idx;
  plug_type :
    _type dev =
    "OnOffSwitch" :: (if is_plug then ["SmartPlug"] else [])
      ++ (if Py.is_not_none p then ["EnergyMonitor"] else [])
      ++ (if level is Some _ then ["MultiLevelSwitch"] else []);
  plug_power :
    dict_get "instantaneousPower" (properties dev) =
    if Py.is_not_none p
    then Some (stored "instantaneousPower" power_description p) else None;
  plug_voltage :
    dict_get "voltage" (properties dev) =
    if Py.is_not_none v
    then Some (stored "voltage" voltage_description v) else None;
  plug_current :
    dict_get "current" (properties dev) =
    if Py.is_not_none c
    then Some (stored "current" current_description c) else None;
  plug_level :
    dict_get "level" (properties dev) =
    (fun z => stored "level" AztechPlug.level_description (VInt z)) <$> level;
  plug_on :
    dict_get "on" (properties dev) =
    Some (stored "on" on_description (VBool on));
  plug_led :
    dict_get "led-on" (properties dev) =
    Some (stored "led-on" AztechPlug.led_description (VBool led))
}.

(** The device-name field holds "Light Switch": as a substring when it is a
    string, as an element or a key when it is a list or a dictionary. *)
Definition names_light_switch (d : gmap string pyval) : Prop :=
  match d !! "dev_name" with
  | Some (VStr s) => exists pre post, s = pre +:+ "Light Switch" +:+ post
  | Some (VList l) => VStr "Light Switch" ∈ l
  | Some (VDict m) => is_Some (m !! "Light Switch")
  | _ => False
  end.

(** What [AztechBulb.__init__] builds, given the outcome of each of its
    decisions: colour and colour-temperature support, the values read for
    the colour properties, the brightness when the bulb is dimmable, the
    power reading and the on/off state. *)
Record bulb_built (color variable : bool) (rgb lo hi : pyval) (t : Z)
    (mode : string) (level : option Z) (p : pyval) (on : bool) (idx : Z)
    (dev : device) : Prop := {
  bulb_index : index dev = idx;
  bulb_type :
    _type dev =
    ["OnOffSwitch"; "Light"]
      ++ (if color || variable then ["ColorControl"] else [])
      ++ (if Py.is_not_none p then ["EnergyMonitor"] else []);
  bulb_color :
    dict_get "color" (properties dev) =
    if color
    then Some (stored "color" AztechBulb.color_description rgb) else None;
  bulb_color_temp :
    dict_get "colorTemperature" (properties dev) =
    if variable
    then Some (stored "colorTemperature"
                 (AztechBulb.color_temperature_description lo hi) (VInt t))
    else None;
  bulb_color_mode :
    dict_get "colorMode" (properties dev) =
    if color && variable
    then Some (stored "colorMode" AztechBulb.color_mode_description
                 (VStr mode))
    else None;
  bulb_level :
    dict_get "level" (properties dev) =
    (fun z => stored "level" AztechBulb.level_description (VInt z)) <$> level;
  bulb_on :
    dict_get "on" (properties dev) =
    Some (stored "on" on_description (VBool on))
}.

(** The status flag [key] is set. *)
Definition indicates (d : gmap string pyval) (key : string) : Prop :=
  exists v, d !! key = Some v /\ Py.bool v = true.

(** The reads behind the colour properties of a bulb, taken from a given
    record [src]: the integer value of a field, the colour mode, and the
    hue, saturation and value (brightness scaled from 0..100 to 0..255). *)
Section FieldReads.
Context `{Externals}.

Definition field_int (src : pyval) (key : string) : result Z :=
  v ← Py.getitem src key; Py.int v.

Definition mode_of (src : pyval) : result string :=
  t ← field_int src "color_temp";
  Ok (if t =? 0 then "color" else "temperature").

Definition hsv_of (src : pyval) : result (pyval * pyval * Z) :=
  hue ← Py.getitem src "hue";
  saturation ← Py.getitem src "saturation";
  b ← Py.getitem src "brightness";
  scaled ← Py.mul b (VInt 255);
  q ← Py.truediv scaled (VInt 100);
  value ← Py.int q;
  Ok (hue, saturation, value).

End FieldReads.

(** The light state of the specification's example: the light is off and
    only the default-on record holds the colour fields. *)
Definition off_light_state : gmap string pyval :=
  {[ "on_off" := VInt 0;
     "dft_on_state" :=
       VDict {[ "hue" := VInt 120; "saturation" := VInt 50;
                "brightness" := VInt 80; "color_temp" := VInt 0 ]} ]}.

(** A vendor snapshot fetch of a plug's poll cycle fails: the status fetch
    raises the vendor's communication error or answers [None], or the
    energy fetch (made when the status lists the energy meter) raises the
    communication error. *)
Definition plug_fetch_fails `{Externals} (kd : kyla_dev) : Prop :=
  sys_info kd = Raise SmartDeviceException \/
  sys_info kd = Ok VNone \/
  exists sysinfo,
    sys_info kd = Ok sysinfo /\ sysinfo <> VNone /\
    AztechPlug.has_emeter sysinfo = Ok true /\
    get_emeter_realtime kd = Raise SmartDeviceException.

(** A vendor snapshot fetch of a bulb's poll cycle fails: the status, the
    energy or the light-state fetch raises the communication error, or the
    status fetch answers [None]. *)
Definition bulb_fetch_fails (kd : kyla_dev) : Prop :=
  sys_info kd = Raise SmartDeviceException \/
  sys_info kd = Ok VNone \/
  exists sysinfo,
    sys_info kd = Ok sysinfo /\ sysinfo <> VNone /\
    (get_emeter_realtime kd = Raise SmartDeviceException \/
     exists emeter, get_emeter_realtime kd = Ok emeter /\
                    get_light_state kd = Raise SmartDeviceException).

(** The cycle answered by [kd] sleeps the poll interval, refreshes no
    property, leaves the device as it was and goes on to the next cycle. *)
Definition skips_cycle
    (cycle : kyla_dev -> device -> device * list event * cycle_end)
    (kd : kyla_dev) : Prop :=
  forall dev, exists tr,
    cycle kd dev = (dev, EvSleep _POLL_INTERVAL :: tr, NextCycle) /\
    forall k, EvUpdate k ∉ tr.

(** A cycle that is skipped does not show in what the loop does next: only
    its trace is put in front. *)
Definition resumes_after
    (poll : list kyla_dev -> device -> device * list event * option exn)
    (kd : kyla_dev) : Prop :=
  forall dev, exists tr,
    forall rest dev' tr' r,
      poll rest dev = (dev', tr', r) ->
      poll (kd :: rest) dev = (dev', EvSleep _POLL_INTERVAL :: tr ++ tr', r).

(** The values of the status's [led_off] flag: 0 or 1, as integers or as
    booleans. *)
Definition led_flag (v : pyval) : Prop :=
  v = VInt 0 \/ v = VInt 1 \/ v = VBool false \/ v = VBool true.

(** The binary64 numbers 1.5 and 2. *)
Definition one_and_a_half : spec_float := S754_finite false (3 * 2 ^ 51) (-52).

Definition two : spec_float := S754_finite false (2 ^ 52) (-51).

(** ** Vocabulary of the further properties *)

(** The alias the device is named after: the one of the outlet selected by
    a non-negative index, the top-level one otherwise. *)
Definition alias_of (idx : Z) (d : gmap string pyval) : option pyval :=
  if 0 <=? idx then
    match d !! "children" with
    | Some (VList children) =>
        match children !! Z.to_nat idx with
        | Some (VDict child) => child !! "alias"
        | _ => None
        end
    | _ => None
    end
  else d !! "alias".

(** The names of the properties of a device, in insertion order. *)
Definition property_names (dev : device) : list string :=
  (properties dev).*1.

(** The update events of a trace, in order. *)
Fixpoint updates_of (tr : list event) : list string :=
  match tr with
  | [] => []
  | EvUpdate k :: tr' => k :: updates_of tr'
  | _ :: tr' => updates_of tr'
  end.

(** The value channel as [hsv] computes it from an integer brightness:
    [int(b * 255 / 100)] with Python's true division. *)
Definition scaled_value `{Externals} (b : Z) : result Z :=
  scaled ← Py.mul (VInt b) (VInt 255);
  q ← Py.truediv scaled (VInt 100);
  Py.int q.

Definition scaled_value_is_floor `{Externals} (b : Z) : bool :=
  match scaled_value b with
  | Ok v => v =? b * 255 / 100
  | Raise _ => false
  end.

(** A device with the same identity and other properties. *)
Definition with_properties (dev : device) (props : list (string * property))
  : device :=
  {| _type := _type dev; index := index dev; name := name dev;
     description := description dev; properties := props |}.

(** * Properties *)

(** ** The result monad *)

Lemma bind_Ok {A B} (m : result A) (k : A -> result B) (b : B) :
  m ≫= k = Ok b -> exists a, m = Ok a /\ k a = Ok b.
Proof. destruct m as [a|e]; simpl; [eauto | discriminate]. Qed.

(** Peels the successful steps off a hypothesis [x ← m; k = Ok b]. *)
Ltac inv_bind H :=
  let a := fresh "x" in
  let Ha := fresh "E" in
  apply bind_Ok in H as (a & Ha & H).

Ltac inv_Ok H := injection H as <-.

(** ** Strings *)

Lemma startswith_spec (p s : string) :
  Py.startswith p s = true <-> exists post, s = p +:+ post.
Proof.
  revert s; induction p as [|a p IH]; intros s; simpl.
  - split; [eauto | done].
  - destruct s as [|b s]; simpl.
    + split; [done | intros [post Hp]; discriminate].
    + rewrite andb_true_iff, IH. split.
      * intros [Hab [post ->]]. apply Ascii.eqb_eq in Hab as ->. eauto.
      * intros [post [= -> ->]]. split; [apply Ascii.eqb_refl | eauto].
Qed.

(** [needle in s] is the substring relation. *)
Lemma str_contains_spec (needle s : string) :
  Py.str_contains needle s = true <->
  exists pre post, s = pre +:+ needle +:+ post.
Proof.
  induction s as [|c s IH]; simpl; rewrite orb_true_iff, startswith_spec.
  - split.
    + intros [[post Hp] | ?]; [| done]. exists "", post. done.
    + intros (pre & post & Hs). left. destruct pre; simpl in Hs; [eauto | done].
  - rewrite IH. split.
    + intros [[post Hp] | (pre & post & ->)].
      * exists "", post. done.
      * exists (String c pre), post. done.
    + intros (pre & post & Hs). destruct pre as [|c' pre]; simpl in Hs.
      * left. eauto.
      * right. injection Hs as -> ->. eauto.
Qed.

Lemma str_split_nonempty (sep : ascii) (s : string) : Py.str_split sep s <> [].
Proof.
  induction s as [|c s IH]; simpl; [done |].
  destruct (Ascii.eqb c sep); [done |].
  destruct (Py.str_split sep s); done.
Qed.

(** Splitting loses nothing: joining the pieces with the separator gives
    the string back. *)
Lemma str_join_split (sep : ascii) (s : string) :
  str_join sep (Py.str_split sep s) = s.
Proof.
  induction s as [|c s IH]; simpl; [done |].
  pose proof (str_split_nonempty sep s) as Hne.
  destruct (Ascii.eqb_spec c sep) as [-> | Hc].
  - simpl. destruct (Py.str_split sep s) eqn:E; [done |]. by rewrite IH.
  - destruct (Py.str_split sep s) as [|x xs] eqn:E; [done |].
    simpl in *. destruct xs; simpl in *; by rewrite <- IH.
Qed.

(** No piece of a split holds the separator. *)
Lemma str_split_no_sep (sep : ascii) (s x : string) :
  x ∈ Py.str_split sep s -> Py.str_contains (String sep "") x = false.
Proof.
  revert x; induction s as [|c s IH]; intros x; simpl.
  - intros ->%list_elem_of_singleton. done.
  - destruct (Ascii.eqb_spec c sep) as [-> | Hc].
    + intros [-> | Hx]%elem_of_cons; [done | by apply IH].
    + destruct (Py.str_split sep s) as [|y ys] eqn:E.
      * intros ->%list_elem_of_singleton. simpl.
        apply Ascii.eqb_neq in Hc. rewrite Ascii.eqb_sym, Hc. done.
      * intros [-> | Hx]%elem_of_cons.
        -- simpl. apply Ascii.eqb_neq in Hc. rewrite Ascii.eqb_sym, Hc. simpl.
           apply IH. by left.
        -- apply IH. by right.
Qed.

(** ** Insertion-ordered dictionaries *)

Lemma dict_get_set_eq {A} (k : string) (v : A) (l : list (string * A)) :
  dict_get k (dict_set k v l) = Some v.
Proof.
  induction l as [|[k' v'] l IH]; simpl.
  - by rewrite String.eqb_refl.
  - destruct (String.eqb k k') eqn:E; simpl.
    + by rewrite String.eqb_refl.
    + by rewrite E.
Qed.

Lemma dict_get_set_ne {A} (k k' : string) (v : A) (l : list (string * A)) :
  k <> k' -> dict_get k (dict_set k' v l) = dict_get k l.
Proof.
  intros Hne. induction l as [|[k'' v''] l IH]; simpl.
  - apply String.eqb_neq in Hne. by rewrite Hne.
  - destruct (String.eqb k' k'') eqn:E; simpl.
    + apply String.eqb_eq in E as <-.
      apply String.eqb_neq in Hne. by rewrite Hne.
    + by rewrite IH.
Qed.

(** ** Extraction helpers *)

Lemma contains_dict (d : gmap string pyval) (k : string) :
  Py.contains (VDict d) k = Ok (bool_decide (is_Some (d !! k))).
Proof. done. Qed.

Lemma extraction_reading (base milli : string) (d : gmap string pyval) :
  (has ← Py.contains (VDict d) base;
   if has : bool then Py.getitem (VDict d) base
   else
     has_m ← Py.contains (VDict d) milli;
     if has_m : bool then
       v ← Py.getitem (VDict d) milli; Py.truediv v (VInt 1000)
     else Ok VNone) = reading base milli d.
Proof.
  unfold reading. simpl.
  destruct (d !! base) as [v|] eqn:Eb; simpl; [done |].
  destruct (d !! milli) as [v|] eqn:Em; simpl; done.
Qed.

(** C4: on every energy snapshot each of [power], [voltage] and [current]
    returns the base-unit key's value unchanged when that key is present,
    otherwise the milli-unit key's value divided by 1000 when that key is
    present, and otherwise [None]; a snapshot with only the milli-unit key
    at 1500 gives 1.5, one with only the base-unit key at 1.5 gives 1.5,
    and one with neither key gives [None]. *)
Theorem extraction_helpers :
  (forall d : gmap string pyval,
      AztechDevice.power (VDict d) = reading "power" "power_mw" d /\
      AztechDevice.voltage (VDict d) = reading "voltage" "voltage_mv" d /\
      AztechDevice.current (VDict d) = reading "current" "current_ma" d) /\
  float_is one_and_a_half 3 2 /\
  (AztechDevice.power (VDict {[ "power_mw" := VInt 1500 ]})
     = Ok (VFloat one_and_a_half) /\
   AztechDevice.voltage (VDict {[ "voltage_mv" := VInt 1500 ]})
     = Ok (VFloat one_and_a_half) /\
   AztechDevice.current (VDict {[ "current_ma" := VInt 1500 ]})
     = Ok (VFloat one_and_a_half)) /\
  (AztechDevice.power (VDict {[ "power" := VFloat one_and_a_half ]})
     = Ok (VFloat one_and_a_half) /\
   AztechDevice.voltage (VDict {[ "voltage" := VFloat one_and_a_half ]})
     = Ok (VFloat one_and_a_half) /\
   AztechDevice.current (VDict {[ "current" := VFloat one_and_a_half ]})
     = Ok (VFloat one_and_a_half)) /\
  (AztechDevice.power (VDict ∅) = Ok VNone /\
   AztechDevice.voltage (VDict ∅) = Ok VNone /\
   AztechDevice.current (VDict ∅) = Ok VNone).
Proof.
  split; [| split; [| split; [| split]]].
  - intros d. repeat split; apply extraction_reading.
  - reflexivity.
  - repeat split; vm_compute; reflexivity.
  - repeat split; vm_compute; reflexivity.
  - repeat split; vm_compute; reflexivity.
Qed.

(** ** Construction: what the shared blocks do to a device *)

Lemma device_init_inv (kd : kyla_dev) (idx : Z) (base : device) :
  AztechDevice.__init__ kd idx = Ok base ->
  _type base = [] /\ properties base = [] /\ index base = idx.
Proof.
  unfold AztechDevice.__init__. intros H.
  repeat inv_bind H. inv_Ok H. done.
Qed.

Ltac solve_energy_block H :=
  inv_Ok H;
  repeat match goal with
         | |- context [Py.is_not_none ?x] => destruct (Py.is_not_none x) eqn:?
         end;
  split; simpl; intros;
  repeat match goal with
         | Hb : Py.is_not_none ?x = _ |- context [Py.is_not_none ?x] =>
             rewrite Hb
         end;
  rewrite ?app_nil_r;
  repeat first [rewrite dict_get_set_eq | rewrite dict_get_set_ne by done];
  done.

Lemma plug_init_emeter_inv (kd : kyla_dev) (dev dev' : device) :
  AztechPlug.init_emeter kd dev = Ok dev' ->
  exists e p v c,
    get_emeter_realtime kd = Ok e /\
    AztechDevice.power e = Ok p /\
    AztechDevice.voltage e = Ok v /\
    AztechDevice.current e = Ok c /\
    energy_block p v c dev dev'.
Proof.
  unfold AztechPlug.init_emeter. intros H.
  inv_bind H. inv_bind H. cbv zeta in H. inv_bind H. inv_bind H.
  exists x, x0, x1, x2. repeat (split; [done |]).
  solve_energy_block H.
Qed.

(** ** Plug construction *)

Section PlugConstruction.
Context `{Externals}.

(** Every successful construction of a plug went through the same
    decisions, and they determine the device. *)
Lemma plug_init_inv (kd : kyla_dev) (idx : Z) (dev : device) :
  AztechPlug.__init__ kd idx = Ok dev ->
  exists sysinfo is_plug hm p v c level on led,
    sys_info kd = Ok sysinfo /\
    plug_tag_decision sysinfo = Ok is_plug /\
    AztechPlug.has_emeter sysinfo = Ok hm /\
    (if hm : bool then
       exists e, get_emeter_realtime kd = Ok e /\
                 AztechDevice.power e = Ok p /\
                 AztechDevice.voltage e = Ok v /\
                 AztechDevice.current e = Ok c
     else p = VNone /\ v = VNone /\ c = VNone) /\
    AztechPlug.is_dimmable sysinfo = Ok (bool_decide (is_Some level)) /\
    (forall z, level = Some z -> AztechPlug.brightness sysinfo = Ok z) /\
    AztechPlug.is_on idx sysinfo = Ok on /\
    AztechPlug.is_led_on sysinfo = Ok led /\
    plug_built is_plug p v c level on led idx dev.
Proof.
  unfold AztechPlug.__init__. intros H0.
  inv_bind H0. apply device_init_inv in E as (Hty & Hprops & Hidx).
  cbv zeta in H0. inv_bind H0. rename x0 into sysinfo.
  inv_bind H0. rename x0 into has_name.
  inv_bind H0. rename x0 into is_plug.
  inv_bind H0. rename x0 into hm.
  inv_bind H0. rename x0 into dev1.
  inv_bind H0. rename x0 into dim.
  inv_bind H0. rename x0 into dev2.
  inv_bind H0. rename x0 into on.
  inv_bind H0. rename x0 into led. inv_Ok H0.
  assert (Htag : plug_tag_decision sysinfo = Ok is_plug).
  { unfold plug_tag_decision. rewrite E0. simpl. exact E1. }
  set (dev0 := if is_plug then _ else _) in E3.
  assert (Hdev0 : index dev0 = idx /\ properties dev0 = [] /\
            _type dev0 = "OnOffSwitch" :: (if is_plug then ["SmartPlug"] else [])).
  { subst dev0. destruct is_plug; simpl; rewrite Hty; done. }
  destruct Hdev0 as (Hi0 & Hp0 & Ht0). clearbody dev0.
  assert (Hen : exists p v c,
            (if hm : bool then
               exists e, get_emeter_realtime kd = Ok e /\
                         AztechDevice.power e = Ok p /\
                         AztechDevice.voltage e = Ok v /\
                         AztechDevice.current e = Ok c
             else p = VNone /\ v = VNone /\ c = VNone) /\
            energy_block p v c dev0 dev1).
  { destruct hm.
    - apply plug_init_emeter_inv in E3 as (e & p & v & c & ? & ? & ? & ? & ?).
      exists p, v, c. split; [eauto 10 | done].
    - inv_Ok E3. exists VNone, VNone, VNone. split; [done |].
      split; simpl; rewrite ?app_nil_r; done. }
  destruct Hen as (p & v & c & Hread & [Hi1 Ht1 Hpw Hvo Hcu Hot]).
  assert (Hlv : exists level,
            dim = bool_decide (is_Some level) /\
            (forall z, level = Some z -> AztechPlug.brightness sysinfo = Ok z) /\
            index dev2 = index dev1 /\
            _type dev2 = _type dev1 ++ (if level is Some _ then ["MultiLevelSwitch"] else []) /\
            dict_get "level" (properties dev2) =
              match level with
              | Some z => Some (stored "level" AztechPlug.level_description (VInt z))
              | None => dict_get "level" (properties dev1)
              end /\
            (forall k, k <> "level" ->
                       dict_get k (properties dev2) = dict_get k (properties dev1))).
  { destruct dim.
    - inv_bind E5. inv_Ok E5. exists (Some x0). simpl.
      repeat split; try done.
      + intros z [= <-]. done.
      + apply dict_get_set_eq.
      + intros k Hk. by apply dict_get_set_ne.
    - inv_Ok E5. exists None. simpl. rewrite app_nil_r. repeat split; done. }
  destruct Hlv as (level & -> & Hbr & Hi2 & Ht2 & Hl2 & Ho2).
  exists sysinfo, is_plug, hm, p, v, c, level, on, led.
  rewrite Hi2, Hi1, Hi0 in E6.
  repeat (split; [done |]).
  split; simpl.
  - by rewrite Hi2, Hi1, Hi0.
  - rewrite Ht2, Ht1, Ht0. by rewrite <- app_assoc.
  - rewrite !dict_get_set_ne, Ho2, Hpw, Hp0 by done. done.
  - rewrite !dict_get_set_ne, Ho2, Hvo, Hp0 by done. done.
  - rewrite !dict_get_set_ne, Ho2, Hcu, Hp0 by done. done.
  - rewrite !dict_get_set_ne, Hl2 by done.
    destruct level; [done |]. rewrite Hot, Hp0 by done. done.
  - rewrite dict_get_set_ne, dict_get_set_eq by done. done.
  - rewrite dict_get_set_eq. done.
Qed.

End PlugConstruction.

(** ** Plug capabilities *)

Lemma plug_tags (is_plug : bool) (p v c : pyval) (level : option Z)
    (on led : bool) (idx : Z) (dev : device) :
  plug_built is_plug p v c level on led idx dev ->
  ("SmartPlug" ∈ _type dev <-> is_plug = true) /\
  ("EnergyMonitor" ∈ _type dev <-> Py.is_not_none p = true) /\
  ("MultiLevelSwitch" ∈ _type dev <-> is_Some level).
Proof.
  intros [_ Ht _ _ _ _ _ _]. rewrite Ht.
  destruct is_plug, (Py.is_not_none p), level as [z|]; simpl;
    rewrite ?elem_of_cons, ?elem_of_nil, ?is_Some_alt;
    intuition (try discriminate; auto).
Qed.

Lemma contains_list (l : list pyval) (needle : string) :
  existsb (fun x => match x with
                    | VStr t => String.eqb needle t
                    | _ => false
                    end) l = true <-> VStr needle ∈ l.
Proof.
  induction l as [|x l IH]; simpl.
  - rewrite elem_of_nil. done.
  - rewrite orb_true_iff, IH, elem_of_cons. split.
    + intros [Hx | ?]; [left | by right].
      destruct x; try done. by apply String.eqb_eq in Hx as ->.
    + intros [<- | ?]; [left | by right]. apply String.eqb_refl.
Qed.

Lemma plug_tag_decision_spec (d : gmap string pyval) (is_plug : bool) :
  plug_tag_decision (VDict d) = Ok is_plug ->
  (is_plug = true <-> ~ names_light_switch d).
Proof.
  unfold plug_tag_decision, names_light_switch. simpl.
  destruct (d !! "dev_name") as [v|] eqn:Ed; simpl.
  - destruct v; simpl; try discriminate; intros [= <-]; rewrite negb_true_iff.
    + rewrite <- str_contains_spec. symmetry. apply not_true_iff_false.
    + rewrite <- contains_list. symmetry. apply not_true_iff_false.
    + rewrite bool_decide_eq_false. done.
  - intros [= <-]. split; [tauto | done].
Qed.

Lemma plug_is_on_spec (idx : Z) (d : gmap string pyval) (b : bool) :
  AztechPlug.is_on idx (VDict d) = Ok b <->
  exists flag, state_flag idx d = Some flag /\ b = Py.bool flag.
Proof.
  unfold AztechPlug.is_on, state_flag.
  destruct (0 <=? idx) eqn:Hidx; simpl.
  - apply Z.leb_le in Hidx.
    destruct (d !! "children") as [children|]; simpl;
      [| split; [done | by intros (? & ? & ?)]].
    destruct children as [| | | | |l|]; simpl;
      try (split; [done | by intros (? & ? & ?)]).
    + repeat case_match; simpl; split; try done; by intros (? & ? & ?).
    + destruct (idx <? 0) eqn:Hneg; [apply Z.ltb_lt in Hneg; lia |].
      rewrite Hneg.
      destruct (l !! Z.to_nat idx) as [child|]; simpl;
        [| split; [done | by intros (? & ? & ?)]].
      destruct child as [| | | | | |c]; simpl;
        try (split; [done | by intros (? & ? & ?)]).
      destruct (c !! "state") as [flag|]; simpl.
      * split; [intros [= <-]; eauto | by intros (? & [= <-] & ->)].
      * split; [done | by intros (? & ? & ?)].
  - destruct (d !! "relay_state") as [flag|]; simpl.
    + split; [intros [= <-]; eauto | by intros (? & [= <-] & ->)].
    + split; [done | by intros (? & ? & ?)].
Qed.

Section PlugCapabilities.
Context `{Externals}.

(** C6: the type list of a constructed plug holds "SmartPlug" if and only
    if the status's [dev_name] field does not contain "Light Switch"; a
    status without [dev_name] receives the tag, and one whose name has
    "Light Switch" as a substring does not. *)
Theorem smart_plug_tag (kd : kyla_dev) (idx : Z) (dev : device)
    (d : gmap string pyval) :
  sys_info kd = Ok (VDict d) ->
  AztechPlug.__init__ kd idx = Ok dev ->
  ("SmartPlug" ∈ _type dev <-> ~ names_light_switch d) /\
  (d !! "dev_name" = None -> "SmartPlug" ∈ _type dev) /\
  (forall s pre post,
      d !! "dev_name" = Some (VStr s) ->
      s = pre +:+ "Light Switch" +:+ post ->
      "SmartPlug" ∉ _type dev).
Proof.
  intros Hsys Hinit.
  apply plug_init_inv in Hinit
    as (sysinfo & is_plug & hm & p & v & c & level & on & led
        & Hs & Htag & _ & _ & _ & _ & _ & _ & Hbuilt).
  rewrite Hsys in Hs. inv_Ok Hs.
  apply plug_tags in Hbuilt as (Hplug & _ & _).
  apply plug_tag_decision_spec in Htag.
  assert (Hiff : "SmartPlug" ∈ _type dev <-> ~ names_light_switch d)
    by (rewrite Hplug; exact Htag).
  split; [exact Hiff |]. split.
  - intros Hnone. apply Hiff. unfold names_light_switch. rewrite Hnone. tauto.
  - intros s pre post Hname Hsub Hin. apply Hiff in Hin. apply Hin.
    unfold names_light_switch. rewrite Hname. eauto.
Qed.

(** C7: the value of the on/off property of a constructed plug is the
    boolean of the selected outlet's state flag,
    [status.children[index].state], when the index is at least 0, and
    the boolean of the top-level [relay_state] flag otherwise. *)
Theorem on_off_value (kd : kyla_dev) (idx : Z) (dev : device)
    (d : gmap string pyval) :
  sys_info kd = Ok (VDict d) ->
  AztechPlug.__init__ kd idx = Ok dev ->
  exists flag,
    state_flag idx d = Some flag /\
    AztechPlug.is_on idx (VDict d) = Ok (Py.bool flag) /\
    dict_get "on" (properties dev)
    = Some (stored "on" on_description (VBool (Py.bool flag))).
Proof.
  intros Hsys Hinit.
  apply plug_init_inv in Hinit
    as (sysinfo & is_plug & hm & p & v & c & level & on & led
        & Hs & _ & _ & _ & _ & _ & Hon & _ & Hbuilt).
  rewrite Hsys in Hs. inv_Ok Hs.
  pose proof Hon as Hon'.
  apply plug_is_on_spec in Hon as (flag & Hflag & ->).
  exists flag. repeat split; try done. apply Hbuilt.
Qed.

(** C8: a constructed plug carries the "MultiLevelSwitch" tag and the
    integer [level] property, with minimum 0 and maximum 100, if and only
    if the status has a [brightness] field; the property's initial value
    is then the integer value of that field. *)
Theorem dimmable_level (kd : kyla_dev) (idx : Z) (dev : device)
    (d : gmap string pyval) :
  sys_info kd = Ok (VDict d) ->
  AztechPlug.__init__ kd idx = Ok dev ->
  ("MultiLevelSwitch" ∈ _type dev <-> is_Some (d !! "brightness")) /\
  (is_Some (dict_get "level" (properties dev))
   <-> is_Some (d !! "brightness")) /\
  (forall b, d !! "brightness" = Some b ->
             exists z, Py.int b = Ok z /\
                       dict_get "level" (properties dev)
                       = Some (stored "level" AztechPlug.level_description
                                 (VInt z))) /\
  AztechPlug.level_description !! "type" = Some (VStr "integer") /\
  AztechPlug.level_description !! "minimum" = Some (VInt 0) /\
  AztechPlug.level_description !! "maximum" = Some (VInt 100).
Proof.
  intros Hsys Hinit.
  apply plug_init_inv in Hinit
    as (sysinfo & is_plug & hm & p & v & c & level & on & led
        & Hs & _ & _ & _ & Hdim & Hbr & _ & _ & Hbuilt).
  rewrite Hsys in Hs. inv_Ok Hs.
  unfold AztechPlug.is_dimmable in Hdim. rewrite contains_dict in Hdim.
  injection Hdim as Hdim.
  assert (Hlevel : is_Some level <-> is_Some (d !! "brightness")).
  { destruct level, (d !! "brightness"); try discriminate Hdim;
      rewrite ?is_Some_alt; done. }
  pose proof (plug_tags _ _ _ _ _ _ _ _ _ Hbuilt) as (_ & _ & Htag).
  destruct Hbuilt as [_ _ _ _ _ Hl _ _].
  split; [by rewrite Htag |]. split.
  - rewrite Hl, fmap_is_Some. done.
  - split; [| repeat split; reflexivity]. intros b Hb.
    destruct level as [z|].
    + specialize (Hbr z eq_refl). unfold AztechPlug.brightness in Hbr.
      simpl in Hbr. rewrite Hb in Hbr. simpl in Hbr. eauto.
    + destruct Hlevel as [_ Hl']. destruct Hl' as [? [=]]. eauto.
Qed.

(** C9: the value of the LED property of a constructed plug is the logical
    negation of the status's [led_off] flag: it is true exactly when the
    flag is falsy. *)
Theorem led_on_value (kd : kyla_dev) (idx : Z) (dev : device)
    (d : gmap string pyval) :
  sys_info kd = Ok (VDict d) ->
  AztechPlug.__init__ kd idx = Ok dev ->
  exists flag value,
    d !! "led_off" = Some flag /\
    dict_get "led-on" (properties dev)
    = Some (stored "led-on" AztechPlug.led_description (VBool value)) /\
    (led_flag flag ->
     value = negb (Py.bool flag) /\
     (value = true <-> Py.bool flag = false)).
Proof.
  intros Hsys Hinit.
  apply plug_init_inv in Hinit
    as (sysinfo & is_plug & hm & p & v & c & level & on & led
        & Hs & _ & _ & _ & _ & _ & _ & Hled & Hbuilt).
  rewrite Hsys in Hs. inv_Ok Hs.
  unfold AztechPlug.is_led_on in Hled.
  inv_bind Hled. rename x into flag. inv_bind Hled. rename x into diff.
  inv_Ok Hled.
  simpl in E. destruct (d !! "led_off") as [flag'|] eqn:Hflag; [| done].
  injection E as ->.
  exists flag, (Py.bool diff). split; [done |]. split; [apply Hbuilt |].
  intros [-> | [-> | [-> | ->]]];
    injection E0 as <-; split; [reflexivity | | reflexivity | | reflexivity |
                                | reflexivity |]; simpl; done.
Qed.

(** C2, as the code has it: a constructed plug carries the
    "EnergyMonitor" tag if and only if the colon-separated feature list
    holds the energy-meter token and the power reading of the energy
    snapshot is present.  When the token is listed the energy snapshot is
    fetched and the power, voltage and current properties are created
    exactly for the readings that are present; when it is not listed none
    of the three is created. *)
Theorem energy_monitor (kd : kyla_dev) (idx : Z) (dev : device)
    (d : gmap string pyval) :
  sys_info kd = Ok (VDict d) ->
  AztechPlug.__init__ kd idx = Ok dev ->
  exists feature p v c,
    d !! "feature" = Some (VStr feature) /\
    let listed := FEATURE_ENERGY_METER ∈ Py.str_split ":" feature in
    (listed ->
     exists e, get_emeter_realtime kd = Ok e /\
               AztechDevice.power e = Ok p /\
               AztechDevice.voltage e = Ok v /\
               AztechDevice.current e = Ok c) /\
    (~ listed -> p = VNone /\ v = VNone /\ c = VNone) /\
    ("EnergyMonitor" ∈ _type dev <-> listed /\ p <> VNone) /\
    dict_get "instantaneousPower" (properties dev) =
      (if Py.is_not_none p
       then Some (stored "instantaneousPower" power_description p)
       else None) /\
    dict_get "voltage" (properties dev) =
      (if Py.is_not_none v
       then Some (stored "voltage" voltage_description v) else None) /\
    dict_get "current" (properties dev) =
      (if Py.is_not_none c
       then Some (stored "current" current_description c) else None).
Proof.
  intros Hsys Hinit.
  apply plug_init_inv in Hinit
    as (sysinfo & is_plug & hm & p & v & c & level & on & led
        & Hs & _ & Hhm & Hread & _ & _ & _ & _ & Hbuilt).
  rewrite Hsys in Hs. inv_Ok Hs.
  unfold AztechPlug.has_emeter in Hhm.
  inv_bind Hhm. inv_bind Hhm. injection Hhm as Hhm.
  simpl in E. destruct (d !! "feature") as [fv|] eqn:Hf; [| done].
  injection E as ->. destruct x as [| | | |feature| |]; try discriminate E0.
  injection E0 as <-.
  exists feature, p, v, c. split; [done |]. cbv zeta.
  pose proof (plug_tags _ _ _ _ _ _ _ _ _ Hbuilt) as (_ & Htag & _).
  destruct Hbuilt as [_ _ Hp Hv Hc _ _ _].
  assert (Hnn : Py.is_not_none p = true <-> p <> VNone)
    by (destruct p; simpl; split; done).
  destruct hm.
  - apply bool_decide_eq_true in Hhm.
    split; [done |]. split; [tauto |]. split; [| done].
    rewrite Htag, Hnn. tauto.
  - apply bool_decide_eq_false in Hhm.
    destruct Hread as (-> & -> & ->).
    split; [tauto |]. split; [done |]. split; [| done].
    rewrite Htag. simpl. split; [done | tauto].
Qed.

End PlugCapabilities.

(** ** Bulb construction *)

Lemma bulb_init_emeter_inv (kd : kyla_dev) (dev dev' : device) :
  AztechBulb.init_emeter kd dev = Ok dev' ->
  exists e p v c,
    get_emeter_realtime kd = Ok e /\
    AztechDevice.power e = Ok p /\
    AztechDevice.voltage e = Ok v /\
    AztechDevice.current e = Ok c /\
    energy_block p v c dev dev'.
Proof.
  unfold AztechBulb.init_emeter. intros H.
  inv_bind H. inv_bind H. cbv zeta in H. inv_bind H. inv_bind H.
  exists x, x0, x1, x2. repeat (split; [done |]).
  solve_energy_block H.
Qed.

Lemma color_control_fresh :
  bool_decide ("ColorControl" ∈ ["OnOffSwitch"; "Light"]) = false.
Proof. reflexivity. Qed.

Lemma color_control_present :
  bool_decide ("ColorControl" ∈ ["OnOffSwitch"; "Light"; "ColorControl"]) = true.
Proof. reflexivity. Qed.

Section BulbConstruction.
Context `{Externals}.

(** Every successful construction of a bulb went through the same
    decisions, and they determine the device. *)
Lemma bulb_init_inv (kd : kyla_dev) (idx : Z) (dev : device) :
  AztechBulb.__init__ kd idx = Ok dev ->
  exists state sysinfo color variable rgb lo hi t mode level p on,
    get_light_state kd = Ok state /\
    sys_info kd = Ok sysinfo /\
    AztechBulb.is_color sysinfo = Ok color /\
    AztechBulb.is_variable_color_temp sysinfo = Ok variable /\
    (color = true ->
     exists h s val, AztechBulb.hsv state = Ok (h, s, val) /\
                     hsv_to_rgb h s val = Ok rgb) /\
    (variable = true ->
     AztechBulb.color_temp state = Ok t /\
     exists range, valid_temperature_range kd = Ok range /\
                   Py.getindex range 0 = Ok lo /\
                   Py.getindex range 1 = Ok hi) /\
    (color && variable = true -> AztechBulb.color_mode state = Ok mode) /\
    AztechBulb.is_dimmable sysinfo = Ok (bool_decide (is_Some level)) /\
    (forall z, level = Some z -> AztechBulb.brightness state = Ok z) /\
    (exists e, get_emeter_realtime kd = Ok e /\
               AztechDevice.power e = Ok p) /\
    AztechBulb.is_on state = Ok on /\
    bulb_built color variable rgb lo hi t mode level p on idx dev.
Proof.
  unfold AztechBulb.__init__. intros H0.
  inv_bind H0. apply device_init_inv in E as (Hty & Hprops & Hidx).
  cbv zeta in H0. set (dev0 := type_append "Light" _) in H0.
  assert (Hdev0 : index dev0 = idx /\ properties dev0 = [] /\
                  _type dev0 = ["OnOffSwitch"; "Light"]).
  { subst dev0. simpl. rewrite Hty. done. }
  destruct Hdev0 as (Hi0 & Hp0 & Ht0). clearbody dev0. clear x Hty Hprops Hidx.
  inv_bind H0. rename x into state.
  inv_bind H0. rename x into sysinfo.
  inv_bind H0. rename x into color.
  inv_bind H0. rename x into dev1.
  inv_bind H0. rename x into variable.
  inv_bind H0. rename x into dev2.
  inv_bind H0. rename x into color'.
  inv_bind H0. rename x into both.
  inv_bind H0. rename x into dev3.
  inv_bind H0. rename x into dim.
  inv_bind H0. rename x into dev4.
  inv_bind H0. rename x into dev5.
  inv_bind H0. rename x into on. inv_Ok H0.
  rewrite E1 in E5. injection E5 as <-.
  (* the colour block *)
  assert (S1 : exists rgb,
            (color = true ->
             exists h s val, AztechBulb.hsv state = Ok (h, s, val) /\
                             hsv_to_rgb h s val = Ok rgb) /\
            index dev1 = idx /\
            _type dev1 = ["OnOffSwitch"; "Light"]
                           ++ (if color then ["ColorControl"] else []) /\
            properties dev1 =
              if color
              then [("color", stored "color" AztechBulb.color_description rgb)]
              else []).
  { destruct color.
    - unfold AztechBulb.init_color in E2. cbv zeta in E2.
      inv_bind E2. destruct x as [[h s] val]. inv_bind E2. inv_Ok E2.
      exists x. simpl. rewrite Hi0, Ht0, Hp0. repeat split; eauto.
    - inv_Ok E2. exists VNone. rewrite Hi0, Ht0, Hp0. done. }
  destruct S1 as (rgb & Hrgb & Hi1 & Ht1 & Hp1).
  (* the colour-temperature block *)
  assert (S2 : exists lo hi t,
            (variable = true ->
             AztechBulb.color_temp state = Ok t /\
             exists range, valid_temperature_range kd = Ok range /\
                           Py.getindex range 0 = Ok lo /\
                           Py.getindex range 1 = Ok hi) /\
            index dev2 = idx /\
            _type dev2 = ["OnOffSwitch"; "Light"]
                           ++ (if color || variable then ["ColorControl"] else []) /\
            properties dev2 =
              if variable
              then dict_set "colorTemperature"
                     (stored "colorTemperature"
                        (AztechBulb.color_temperature_description lo hi) (VInt t))
                     (properties dev1)
              else properties dev1).
  { destruct variable.
    - unfold AztechBulb.init_color_temp in E4. cbv zeta in E4.
      inv_bind E4. inv_bind E4. inv_bind E4. inv_bind E4. inv_Ok E4.
      exists x0, x1, x2. split; [eauto 10 |].
      rewrite Ht1. destruct color; simpl;
        rewrite ?color_control_fresh, ?color_control_present; simpl;
        rewrite ?Hi1, ?Ht1; done.
    - inv_Ok E4. exists VNone, VNone, 0. rewrite orb_false_r. done. }
  destruct S2 as (lo & hi & t & Htemp & Hi2 & Ht2 & Hp2).
  (* the colour-mode block *)
  assert (Hboth : both = color && variable).
  { destruct color; simpl in *; [congruence | by injection E6]. }
  subst both.
  assert (S3 : exists mode,
            (color && variable = true -> AztechBulb.color_mode state = Ok mode) /\
            index dev3 = idx /\ _type dev3 = _type dev2 /\
            properties dev3 =
              if color && variable
              then dict_set "colorMode"
                     (stored "colorMode" AztechBulb.color_mode_description
                        (VStr mode)) (properties dev2)
              else properties dev2).
  { destruct (color && variable).
    - inv_bind E7. inv_Ok E7. exists x. done.
    - inv_Ok E7. exists "". done. }
  destruct S3 as (mode & Hmode & Hi3 & Ht3 & Hp3).
  (* the brightness block *)
  assert (S4 : exists level,
            dim = bool_decide (is_Some level) /\
            (forall z, level = Some z -> AztechBulb.brightness state = Ok z) /\
            index dev4 = idx /\ _type dev4 = _type dev3 /\
            properties dev4 =
              match level with
              | Some z => dict_set "level"
                            (stored "level" AztechBulb.level_description (VInt z))
                            (properties dev3)
              | None => properties dev3
              end).
  { destruct dim.
    - inv_bind E9. inv_Ok E9. exists (Some x). simpl.
      repeat split; try done. by intros z [= <-].
    - inv_Ok E9. exists None. done. }
  destruct S4 as (level & -> & Hbr & Hi4 & Ht4 & Hp4).
  (* the energy block and the switch *)
  apply bulb_init_emeter_inv in E10
    as (e & p & v & c & He & Hpow & _ & _ & [Hi5 Ht5 _ _ _ Hot]).
  exists state, sysinfo, color, variable, rgb, lo, hi, t, mode, level, p, on.
  repeat (split; [by eauto |]).
  split; simpl.
  - by rewrite Hi5.
  - rewrite Ht5, Ht4, Ht3, Ht2. by rewrite <- app_assoc.
  - rewrite dict_get_set_ne, Hot, Hp4, Hp3, Hp2, Hp1 by done.
    destruct color, variable, level; done.
  - rewrite dict_get_set_ne, Hot, Hp4, Hp3, Hp2, Hp1 by done.
    destruct color, variable, level; done.
  - rewrite dict_get_set_ne, Hot, Hp4, Hp3, Hp2, Hp1 by done.
    destruct color, variable, level; done.
  - rewrite dict_get_set_ne, Hot, Hp4, Hp3, Hp2, Hp1 by done.
    destruct color, variable, level; done.
  - apply dict_get_set_eq.
Qed.

End BulbConstruction.

(** ** Bulb capabilities *)

Lemma bulb_flag_spec (d : gmap string pyval) (key : string) (b : bool) :
  (v ← Py.getitem (VDict d) key; Ok (Py.bool v)) = Ok b ->
  (b = true <-> indicates d key).
Proof.
  unfold indicates. simpl. destruct (d !! key) as [v|]; simpl; [| done].
  intros [= <-]. split; [eauto | by intros (? & [= <-] & ?)].
Qed.

Section BulbCapabilities.
Context `{Externals}.

(** How each read resolves the record it takes its fields from. *)
Lemma resolve_off {A} (st : gmap string pyval) (flag dft : pyval)
    (k : pyval -> result A) :
  st !! "on_off" = Some flag -> Py.bool flag = false ->
  st !! "dft_on_state" = Some dft ->
  (on ← AztechBulb.is_on (VDict st);
   light_state ← (if negb on then Py.getitem (VDict st) "dft_on_state"
                  else Ok (VDict st));
   k light_state) = k dft.
Proof.
  intros Hflag Hoff Hdft. unfold AztechBulb.is_on. simpl.
  rewrite Hflag. simpl. rewrite Hoff. simpl. rewrite Hdft. done.
Qed.

Lemma resolve_on {A} (st : gmap string pyval) (flag : pyval)
    (k : pyval -> result A) :
  st !! "on_off" = Some flag -> Py.bool flag = true ->
  (on ← AztechBulb.is_on (VDict st);
   light_state ← (if negb on then Py.getitem (VDict st) "dft_on_state"
                  else Ok (VDict st));
   k light_state) = k (VDict st).
Proof.
  intros Hflag Hon. unfold AztechBulb.is_on. simpl.
  rewrite Hflag. simpl. rewrite Hon. done.
Qed.

Lemma mode_of_eq (src : pyval) :
  (v ← Py.getitem src "color_temp";
   t ← Py.int v;
   if t =? 0 then Ok "color" else Ok "temperature") = mode_of src.
Proof.
  unfold mode_of, field_int.
  destruct (Py.getitem src "color_temp") as [v|]; simpl; [| done].
  destruct (Py.int v) as [t|]; simpl; [| done].
  by destruct (t =? 0).
Qed.

(** C1: when the on/off flag of a light state is false, the reads behind
    the colour, colour-temperature, colour-mode and brightness properties
    take their fields from the nested [dft_on_state] record; when it is
    true they take them from the top-level state.  The off state with
    default-on record hue 120, saturation 50, brightness 80 and
    colour temperature 0 gives the mode "color" and the brightness 80. *)
Theorem off_state_resolution :
  (forall (st : gmap string pyval) (flag dft : pyval),
      st !! "on_off" = Some flag -> Py.bool flag = false ->
      st !! "dft_on_state" = Some dft ->
      AztechBulb.hsv (VDict st) = hsv_of dft /\
      AztechBulb.color_temp (VDict st) = field_int dft "color_temp" /\
      AztechBulb.color_mode (VDict st) = mode_of dft /\
      AztechBulb.brightness (VDict st) = field_int dft "brightness") /\
  (forall (st : gmap string pyval) (flag : pyval),
      st !! "on_off" = Some flag -> Py.bool flag = true ->
      AztechBulb.hsv (VDict st) = hsv_of (VDict st) /\
      AztechBulb.color_temp (VDict st) = field_int (VDict st) "color_temp" /\
      AztechBulb.color_mode (VDict st) = mode_of (VDict st) /\
      AztechBulb.brightness (VDict st) = field_int (VDict st) "brightness") /\
  (forall (kd : kyla_dev) (idx : Z) (dev : device),
      AztechBulb.__init__ kd idx = Ok dev ->
      exists state,
        get_light_state kd = Ok state /\
        (forall p, dict_get "color" (properties dev) = Some p ->
                   exists h s v, AztechBulb.hsv state = Ok (h, s, v) /\
                                 hsv_to_rgb h s v = Ok (prop_value p)) /\
        (forall p, dict_get "colorTemperature" (properties dev) = Some p ->
                   VInt <$> AztechBulb.color_temp state = Ok (prop_value p)) /\
        (forall p, dict_get "colorMode" (properties dev) = Some p ->
                   VStr <$> AztechBulb.color_mode state = Ok (prop_value p)) /\
        (forall p, dict_get "level" (properties dev) = Some p ->
                   VInt <$> AztechBulb.brightness state = Ok (prop_value p))) /\
  AztechBulb.color_mode (VDict off_light_state) = Ok "color" /\
  AztechBulb.brightness (VDict off_light_state) = Ok 80.
Proof.
  split; [| split; [| split; [| split; reflexivity]]].
  - intros st flag dft Hflag Hoff Hdft.
    repeat split.
    + exact (resolve_off st flag dft hsv_of Hflag Hoff Hdft).
    + exact (resolve_off st flag dft (fun src => field_int src "color_temp")
               Hflag Hoff Hdft).
    + rewrite <- mode_of_eq.
      exact (resolve_off st flag dft _ Hflag Hoff Hdft).
    + exact (resolve_off st flag dft (fun src => field_int src "brightness")
               Hflag Hoff Hdft).
  - intros st flag Hflag Hon.
    repeat split.
    + exact (resolve_on st flag hsv_of Hflag Hon).
    + exact (resolve_on st flag (fun src => field_int src "color_temp")
               Hflag Hon).
    + rewrite <- mode_of_eq.
      exact (resolve_on st flag _ Hflag Hon).
    + exact (resolve_on st flag (fun src => field_int src "brightness")
               Hflag Hon).
  - intros kd idx dev Hinit.
    apply bulb_init_inv in Hinit
      as (state & sysinfo & color & variable & rgb & lo & hi & t & mode
          & level & p & on & Hst & _ & _ & _ & Hcol & Hvar & Hmode & _
          & Hbr & _ & _ & [_ _ Hc Ht Hm Hl _]).
    exists state. split; [done |]. repeat split.
    + intros q Hq. rewrite Hc in Hq. destruct color; [| done].
      injection Hq as <-. simpl. by apply Hcol.
    + intros q Hq. rewrite Ht in Hq. destruct variable; [| done].
      injection Hq as <-. simpl. destruct Hvar as [-> _]; done.
    + intros q Hq. rewrite Hm in Hq. destruct (color && variable); [| done].
      injection Hq as <-. simpl. rewrite Hmode; done.
    + intros q Hq. rewrite Hl in Hq. destruct level as [z|]; [| done].
      injection Hq as <-. simpl. rewrite (Hbr z); done.
Qed.



(** C10: the type list of a constructed bulb holds "ColorControl" when
    the status indicates colour support or variable colour temperature
    (also with colour temperature alone), and holds it exactly once even
    when both are indicated. *)
Theorem color_control_once (kd : kyla_dev) (idx : Z) (dev : device)
    (d : gmap string pyval) :
  sys_info kd = Ok (VDict d) ->
  AztechBulb.__init__ kd idx = Ok dev ->
  indicates d "is_color" \/ indicates d "is_variable_color_temp" ->
  "ColorControl" ∈ _type dev /\
  count_occ String.string_dec (_type dev) "ColorControl" = 1%nat.
Proof.
  intros Hsys Hinit Hind.
  apply bulb_init_inv in Hinit
    as (state & sysinfo & color & variable & rgb & lo & hi & t & mode
        & level & p & on & _ & Hs & Hcol & Hvar & _ & _ & _ & _
        & _ & _ & _ & [_ Ht _ _ _ _ _]).
  rewrite Hsys in Hs. inv_Ok Hs.
  apply bulb_flag_spec in Hcol, Hvar.
  assert (Hor : color || variable = true).
  { rewrite orb_true_iff, Hcol, Hvar. done. }
  rewrite Ht, Hor.
  destruct (Py.is_not_none p); simpl; split; try reflexivity;
    rewrite !elem_of_cons; auto.
Qed.

End BulbCapabilities.

(** ** The polling loop *)

Lemma poll_loop_skip cycle (kd : kyla_dev) (dev : device) (tr : list event) :
  cycle kd dev = (dev, tr, NextCycle) ->
  forall rest dev' tr' r,
    poll_loop cycle rest dev = (dev', tr', r) ->
    poll_loop cycle (kd :: rest) dev = (dev', tr ++ tr', r).
Proof. intros Hc rest dev' tr' r Hrest. simpl. rewrite Hc, Hrest. done. Qed.

Lemma skips_resumes cycle (kd : kyla_dev) :
  skips_cycle cycle kd -> resumes_after (poll_loop cycle) kd.
Proof.
  intros Hskip dev. destruct (Hskip dev) as (tr & Hc & _).
  exists tr. intros rest dev' tr' r Hrest.
  by apply (poll_loop_skip _ _ _ _ Hc).
Qed.

(** While every cycle is skipped the loop keeps running and the device
    stays as it was. *)
Lemma poll_loop_all_skip cycle (kds : list kyla_dev) (dev : device) :
  Forall (skips_cycle cycle) kds ->
  exists tr, poll_loop cycle kds dev = (dev, tr, None) /\
             forall k, EvUpdate k ∉ tr.
Proof.
  induction 1 as [|kd kds Hkd _ IH]; simpl.
  - exists []. split; [done |]. intros k. apply not_elem_of_nil.
  - destruct (Hkd dev) as (tr & -> & Hno). destruct IH as (tr' & -> & Hno').
    eexists. split; [done |]. intros k.
    rewrite elem_of_app, elem_of_cons. specialize (Hno k). specialize (Hno' k).
    intros [[? | ?] | ?]; done.
Qed.

Section Polling.
Context `{Externals} `{PropertyClasses}.

Lemma plug_cycle_skips (kd : kyla_dev) :
  plug_fetch_fails kd -> skips_cycle AztechPlug.poll_cycle kd.
Proof.
  intros Hfail dev. unfold AztechPlug.poll_cycle.
  destruct Hfail as [-> | [-> | (sysinfo & -> & Hnn & -> & ->)]].
  - exists [EvSysInfo]. split; [done |]. intros k.
    rewrite list_elem_of_singleton. done.
  - exists [EvSysInfo]. split; [done |]. intros k.
    rewrite list_elem_of_singleton. done.
  - exists [EvSysInfo; EvEmeter]. split; [by destruct sysinfo |]. intros k.
    rewrite !elem_of_cons, elem_of_nil. intros [? | [? | ?]]; done.
Qed.

Lemma bulb_cycle_skips (kd : kyla_dev) :
  bulb_fetch_fails kd -> skips_cycle AztechBulb.poll_cycle kd.
Proof.
  intros Hfail dev. unfold AztechBulb.poll_cycle.
  destruct Hfail
    as [-> | [-> | (sysinfo & -> & Hnn & [-> | (emeter & -> & ->)])]].
  - exists [EvSysInfo]. split; [done |]. intros k.
    rewrite list_elem_of_singleton. done.
  - exists [EvSysInfo]. split; [done |]. intros k.
    rewrite list_elem_of_singleton. done.
  - exists [EvSysInfo; EvEmeter]. split; [by destruct sysinfo |]. intros k.
    rewrite !elem_of_cons, elem_of_nil. intros [? | [? | ?]]; done.
  - exists [EvSysInfo; EvEmeter; EvLightState].
    split; [by destruct sysinfo |]. intros k.
    rewrite !elem_of_cons, elem_of_nil. intros [? | [? | [? | ?]]]; done.
Qed.

(** C3: a poll cycle of a plug or a bulb in which a vendor snapshot fetch
    fails (the communication error is raised, or the status is [None])
    sleeps the fixed interval of 5, refreshes no property and leaves the
    device as it was; no exception leaves the loop, the loop goes on, and
    the following cycles run as they would have from the same device,
    each after its own sleep of 5. *)
Theorem poll_fault_tolerance :
  _POLL_INTERVAL = 5 /\
  (forall kd, plug_fetch_fails kd ->
              skips_cycle AztechPlug.poll_cycle kd /\
              resumes_after AztechPlug.poll kd) /\
  (forall kd, bulb_fetch_fails kd ->
              skips_cycle AztechBulb.poll_cycle kd /\
              resumes_after AztechBulb.poll kd) /\
  (forall kds dev,
      Forall plug_fetch_fails kds ->
      exists tr, AztechPlug.poll kds dev = (dev, tr, None) /\
                 forall k, EvUpdate k ∉ tr) /\
  (forall kds dev,
      Forall bulb_fetch_fails kds ->
      exists tr, AztechBulb.poll kds dev = (dev, tr, None) /\
                 forall k, EvUpdate k ∉ tr) /\
  (forall kd dev,
      exists tr, (AztechPlug.poll_cycle kd dev).1.2
                 = EvSleep _POLL_INTERVAL :: tr) /\
  (forall kd dev,
      exists tr, (AztechBulb.poll_cycle kd dev).1.2
                 = EvSleep _POLL_INTERVAL :: tr).
Proof.
  split; [reflexivity |].
  split; [| split; [| split; [| split; [| split]]]].
  - intros kd Hfail. apply plug_cycle_skips in Hfail.
    split; [done | by apply skips_resumes].
  - intros kd Hfail. apply bulb_cycle_skips in Hfail.
    split; [done | by apply skips_resumes].
  - intros kds dev Hall. apply poll_loop_all_skip.
    eapply Forall_impl; [exact Hall | apply plug_cycle_skips].
  - intros kds dev Hall. apply poll_loop_all_skip.
    eapply Forall_impl; [exact Hall | apply bulb_cycle_skips].
  - intros kd dev. unfold AztechPlug.poll_cycle.
    repeat case_match; simpl; eauto.
  - intros kd dev. unfold AztechBulb.poll_cycle.
    repeat case_match; simpl; eauto.
Qed.

End Polling.

(** ** The theorems on the reference devices *)

Section Examples.
#[local] Existing Instances Reference.externals Reference.property_classes.
Import Reference.

Lemma off_state_resolution_witness :
  bulb_state !! "on_off" = Some (VInt 0) /\
  Py.bool (VInt 0) = false /\
  AztechBulb.color_mode (VDict bulb_state) = Ok "color" /\
  AztechBulb.brightness (VDict bulb_state) = Ok 80 /\
  AztechBulb.hsv (VDict bulb_state) = Ok (VInt 120, VInt 50, 204).
Proof.
  destruct off_state_resolution as (Hoff & _).
  destruct (bulb_state !! "dft_on_state") as [dft|] eqn:Hdft;
    [| vm_compute in Hdft; discriminate].
  destruct (Hoff bulb_state (VInt 0) dft) as (Hhsv & _ & Hmode & Hbr);
    [reflexivity | reflexivity | exact Hdft |].
  rewrite Hhsv, Hmode, Hbr.
  vm_compute in Hdft. injection Hdft as <-.
  repeat split; vm_compute; reflexivity.
Defined.

Lemma energy_monitor_witness :
  sys_info plug_handle = Ok (VDict plug_sysinfo) /\
  AztechPlug.__init__ plug_handle (-1) = Ok plug_device /\
  "EnergyMonitor" ∈ _type plug_device /\
  is_Some (dict_get "instantaneousPower" (properties plug_device)) /\
  is_Some (dict_get "voltage" (properties plug_device)) /\
  dict_get "current" (properties plug_device) = None.
Proof.
  assert (Hsys : sys_info plug_handle = Ok (VDict plug_sysinfo))
    by reflexivity.
  assert (Hinit : AztechPlug.__init__ plug_handle (-1) = Ok plug_device)
    by (vm_compute; reflexivity).
  split; [exact Hsys |]. split; [exact Hinit |].
  destruct (energy_monitor plug_handle (-1) plug_device plug_sysinfo
              Hsys Hinit)
    as (feature & p & v & c & Hf & Hlisted & _ & Htag & Hp & Hv & Hc).
  vm_compute in Hf. injection Hf as <-.
  destruct Hlisted as (e & He & Hpow & Hvol & Hcur);
    [apply list_elem_of_In; right; left; reflexivity |].
  vm_compute in He. injection He as <-.
  vm_compute in Hpow. injection Hpow as <-.
  vm_compute in Hvol. injection Hvol as <-.
  vm_compute in Hcur. injection Hcur as <-.
  rewrite Hp, Hv, Hc. repeat split; try (simpl; eauto; fail).
  apply Htag. split; [apply list_elem_of_In; right; left; reflexivity | discriminate].
Defined.

(** With the energy-meter token in the feature list but no power reading
    in the energy snapshot, the plug is built without the tag. *)
Lemma energy_monitor_not_by_feature_alone :
  exists dev,
    sys_info powerless_handle = Ok (VDict plug_sysinfo) /\
    plug_sysinfo !! "feature" = Some (VStr "TIM:ENE") /\
    FEATURE_ENERGY_METER ∈ Py.str_split ":" "TIM:ENE" /\
    AztechPlug.__init__ powerless_handle (-1) = Ok dev /\
    "EnergyMonitor" ∉ _type dev.
Proof.
  eexists. split; [reflexivity |]. split; [reflexivity |].
  split; [apply list_elem_of_In; right; left; reflexivity |].
  split; [vm_compute; reflexivity |].
  simpl. rewrite !elem_of_cons, elem_of_nil. intros [? | [? | ?]]; done.
Qed.

Lemma poll_fault_tolerance_witness :
  plug_fetch_fails unreachable_handle /\
  bulb_fetch_fails unreachable_handle /\
  (exists tr, AztechPlug.poll_cycle unreachable_handle plug_device
              = (plug_device, EvSleep 5 :: tr, NextCycle)) /\
  (exists tr, AztechBulb.poll [unreachable_handle; unreachable_handle]
                bulb_device = (bulb_device, tr, None)).
Proof.
  assert (Hp : plug_fetch_fails unreachable_handle) by (by left).
  assert (Hb : bulb_fetch_fails unreachable_handle) by (by left).
  split; [exact Hp |]. split; [exact Hb |].
  destruct poll_fault_tolerance as (_ & Hplug & _ & _ & Hbulbs & _).
  split.
  - destruct (Hplug _ Hp) as (Hskip & _).
    destruct (Hskip plug_device) as (tr & Hc & _).
    exists tr. exact Hc.
  - destruct (Hbulbs [unreachable_handle; unreachable_handle] bulb_device)
      as (tr & Hrun & _); [by repeat constructor |].
    exists tr. exact Hrun.
Defined.


Lemma smart_plug_tag_witness :
  sys_info switch_handle = Ok (VDict switch_sysinfo) /\
  AztechPlug.__init__ switch_handle (-1) = Ok switch_device /\
  switch_sysinfo !! "dev_name" = Some (VStr "Wi-Fi Smart Light Switch") /\
  "SmartPlug" ∉ _type switch_device.
Proof.
  assert (Hsys : sys_info switch_handle = Ok (VDict switch_sysinfo))
    by reflexivity.
  assert (Hinit : AztechPlug.__init__ switch_handle (-1) = Ok switch_device)
    by (vm_compute; reflexivity).
  split; [exact Hsys |]. split; [exact Hinit |]. split; [reflexivity |].
  destruct (smart_plug_tag switch_handle (-1) switch_device switch_sysinfo
              Hsys Hinit) as (_ & _ & Hswitch).
  apply (Hswitch "Wi-Fi Smart Light Switch" "Wi-Fi Smart " "");
    reflexivity.
Defined.

Lemma on_off_value_witness :
  sys_info strip_handle = Ok (VDict strip_sysinfo) /\
  AztechPlug.__init__ strip_handle 1 = Ok strip_device /\
  dict_get "on" (properties strip_device)
  = Some (stored "on" on_description (VBool true)).
Proof.
  assert (Hsys : sys_info strip_handle = Ok (VDict strip_sysinfo))
    by reflexivity.
  assert (Hinit : AztechPlug.__init__ strip_handle 1 = Ok strip_device)
    by (vm_compute; reflexivity).
  split; [exact Hsys |]. split; [exact Hinit |].
  destruct (on_off_value strip_handle 1 strip_device strip_sysinfo
              Hsys Hinit) as (flag & Hflag & _ & Hon).
  vm_compute in Hflag. injection Hflag as <-. exact Hon.
Defined.

Lemma dimmable_level_witness :
  sys_info dimmer_handle = Ok (VDict dimmer_sysinfo) /\
  AztechPlug.__init__ dimmer_handle (-1) = Ok dimmer_device /\
  "MultiLevelSwitch" ∈ _type dimmer_device /\
  dict_get "level" (properties dimmer_device)
  = Some (stored "level" AztechPlug.level_description (VInt 75)).
Proof.
  assert (Hsys : sys_info dimmer_handle = Ok (VDict dimmer_sysinfo))
    by reflexivity.
  assert (Hinit : AztechPlug.__init__ dimmer_handle (-1) = Ok dimmer_device)
    by (vm_compute; reflexivity).
  split; [exact Hsys |]. split; [exact Hinit |].
  destruct (dimmable_level dimmer_handle (-1) dimmer_device dimmer_sysinfo
              Hsys Hinit) as (Htag & _ & Hval & _).
  split.
  - apply Htag. exists (VInt 75). reflexivity.
  - destruct (Hval (VInt 75)) as (z & Hz & Hl); [reflexivity |].
    injection Hz as <-. exact Hl.
Defined.

Lemma led_on_value_witness :
  sys_info plug_handle = Ok (VDict plug_sysinfo) /\
  AztechPlug.__init__ plug_handle (-1) = Ok plug_device /\
  plug_sysinfo !! "led_off" = Some (VInt 0) /\
  dict_get "led-on" (properties plug_device)
  = Some (stored "led-on" AztechPlug.led_description (VBool true)).
Proof.
  assert (Hsys : sys_info plug_handle = Ok (VDict plug_sysinfo))
    by reflexivity.
  assert (Hinit : AztechPlug.__init__ plug_handle (-1) = Ok plug_device)
    by (vm_compute; reflexivity).
  split; [exact Hsys |]. split; [exact Hinit |]. split; [reflexivity |].
  destruct (led_on_value plug_handle (-1) plug_device plug_sysinfo
              Hsys Hinit) as (flag & value & Hflag & Hled & Hneg).
  vm_compute in Hflag. injection Hflag as <-.
  destruct Hneg as [Hval _]; [by left |].
  rewrite Hval in Hled. exact Hled.
Defined.

Lemma color_control_once_witness :
  sys_info bulb_handle = Ok (VDict bulb_sysinfo) /\
  AztechBulb.__init__ bulb_handle (-1) = Ok bulb_device /\
  (indicates bulb_sysinfo "is_color" \/
   indicates bulb_sysinfo "is_variable_color_temp") /\
  count_occ String.string_dec (_type bulb_device) "ColorControl" = 1%nat.
Proof.
  assert (Hsys : sys_info bulb_handle = Ok (VDict bulb_sysinfo))
    by reflexivity.
  assert (Hinit : AztechBulb.__init__ bulb_handle (-1) = Ok bulb_device)
    by (vm_compute; reflexivity).
  assert (Hind : indicates bulb_sysinfo "is_color" \/
                 indicates bulb_sysinfo "is_variable_color_temp")
    by (left; exists (VInt 1); split; reflexivity).
  split; [exact Hsys |]. split; [exact Hinit |]. split; [exact Hind |].
  exact (proj2 (color_control_once bulb_handle (-1) bulb_device bulb_sysinfo
                  Hsys Hinit Hind)).
Defined.

End Examples.

(** * Further properties *)

(** ** Naming *)

(** X1: the base constructor succeeds exactly on a status with a model and the
    alias it is named after; the description is the model and the name is
    the alias, or the model when the alias is empty. *)
Theorem device_naming (kd : kyla_dev) (idx : Z) (base : device) :
  AztechDevice.__init__ kd idx = Ok base <->
  exists d model alias,
    sys_info kd = Ok (VDict d) /\
    d !! "model" = Some model /\
    alias_of idx d = Some alias /\
    base = {| _type := []; index := idx;
              name := if Py.bool alias then alias else model;
              description := model; properties := [] |}.
Proof.
  unfold AztechDevice.__init__, alias_of. split.
  - intros H. inv_bind H. rename x into si. inv_bind H. rename x into model.
    inv_bind H. rename x into alias. inv_Ok H.
    destruct si as [| | | | | |d]; try discriminate E0.
    simpl in E0. destruct (d !! "model") as [m|] eqn:Hm; [| done].
    injection E0 as ->. exists d, model, alias.
    split; [done |]. split; [done |]. split; [| by destruct (Py.bool alias)].
    rewrite E in E1. simpl in E1.
    destruct (0 <=? idx) eqn:Hidx.
    + apply Z.leb_le in Hidx.
      inv_bind E1. inv_bind E1.
      simpl in E0. destruct (d !! "children") as [children|]; [| done].
      injection E0 as ->.
      destruct x as [| | | | |l|]; try discriminate E2.
      * unfold Py.getindex in E2. repeat case_match; try discriminate E2;
          injection E2 as <-; discriminate E1.
      * unfold Py.getindex in E2.
        destruct (idx <? 0) eqn:Hneg; [apply Z.ltb_lt in Hneg; lia |].
        rewrite Hneg in E2.
        destruct (l !! Z.to_nat idx) as [child|]; [| done].
        injection E2 as ->.
        destruct x0 as [| | | | | |c]; try discriminate E1.
        simpl in E1. destruct (c !! "alias"); simpl; congruence.
    + simpl in E1. destruct (d !! "alias"); simpl; congruence.
  - intros (d & model & alias & -> & Hm & Ha & ->). simpl. rewrite Hm. simpl.
    destruct (0 <=? idx) eqn:Hidx.
    + apply Z.leb_le in Hidx.
      destruct (d !! "children") as [[| | | | |l|]|]; try done. simpl.
      destruct (idx <? 0) eqn:Hneg; [apply Z.ltb_lt in Hneg; lia |].
      rewrite Hneg.
      destruct (l !! Z.to_nat idx) as [[| | | | | |c]|]; try done. simpl.
      rewrite Ha. simpl. by destruct (Py.bool alias).
    + simpl. rewrite Ha. simpl. by destruct (Py.bool alias).
Qed.

Lemma plug_init_emeter_identity (kd : kyla_dev) (dev dev' : device) :
  AztechPlug.init_emeter kd dev = Ok dev' ->
  name dev' = name dev /\ description dev' = description dev.
Proof.
  unfold AztechPlug.init_emeter. intros H.
  repeat inv_bind H. cbv zeta in H. repeat inv_bind H. inv_Ok H.
  repeat match goal with
         | |- context [Py.is_not_none ?x] => destruct (Py.is_not_none x)
         end; done.
Qed.

Lemma bulb_init_emeter_identity (kd : kyla_dev) (dev dev' : device) :
  AztechBulb.init_emeter kd dev = Ok dev' ->
  name dev' = name dev /\ description dev' = description dev.
Proof.
  unfold AztechBulb.init_emeter. intros H.
  repeat inv_bind H. cbv zeta in H. repeat inv_bind H. inv_Ok H.
  repeat match goal with
         | |- context [Py.is_not_none ?x] => destruct (Py.is_not_none x)
         end; done.
Qed.

Section Naming.
Context `{Externals}.

Lemma plug_identity (kd : kyla_dev) (idx : Z) (dev : device) :
  AztechPlug.__init__ kd idx = Ok dev ->
  exists base, AztechDevice.__init__ kd idx = Ok base /\
               name dev = name base /\ description dev = description base.
Proof.
  unfold AztechPlug.__init__. intros H0.
  inv_bind H0. rename x into base. exists base. split; [done |].
  cbv zeta in H0. repeat inv_bind H0. inv_Ok H0. simpl.
  assert (H3 : name x3 = name base /\ description x3 = description base).
  { destruct x2.
    - apply plug_init_emeter_identity in E4 as [-> ->]. by destruct x1.
    - inv_Ok E4. by destruct x1. }
  destruct x4.
  - inv_bind E6. inv_Ok E6. done.
  - inv_Ok E6. done.
Qed.

Lemma bulb_identity (kd : kyla_dev) (idx : Z) (dev : device) :
  AztechBulb.__init__ kd idx = Ok dev ->
  exists base, AztechDevice.__init__ kd idx = Ok base /\
               name dev = name base /\ description dev = description base.
Proof.
  unfold AztechBulb.__init__. intros H0.
  inv_bind H0. rename x into base. exists base. split; [done |].
  cbv zeta in H0. repeat inv_bind H0. inv_Ok H0. simpl.
  apply bulb_init_emeter_identity in E11 as [-> ->].
  assert (H1 : name x2 = name base /\ description x2 = description base).
  { destruct x1; [| by inv_Ok E3].
    unfold AztechBulb.init_color in E3. cbv zeta in E3.
    inv_bind E3. destruct x1 as [[h s] v]. inv_bind E3. by inv_Ok E3. }
  assert (H2 : name x4 = name x2 /\ description x4 = description x2).
  { destruct x3; [| by inv_Ok E5].
    unfold AztechBulb.init_color_temp in E5. cbv zeta in E5.
    repeat inv_bind E5. inv_Ok E5. simpl. by destruct (negb _). }
  assert (H3 : name x7 = name x4 /\ description x7 = description x4).
  { destruct x6; [| by inv_Ok E8]. inv_bind E8. by inv_Ok E8. }
  assert (H4 : name x9 = name x7 /\ description x9 = description x7).
  { destruct x8; [| by inv_Ok E10]. inv_bind E10. by inv_Ok E10. }
  destruct H1 as [<- <-], H2 as [<- <-], H3 as [<- <-], H4 as [<- <-]. done.
Qed.

(** X2: a constructed plug or bulb is described by the status's model and named
    after the alias (of the selected outlet for a non-negative index), or
    after the model when that alias is empty; the capability blocks of the
    constructors leave both untouched. *)
Theorem constructed_naming (kd : kyla_dev) (idx : Z) (dev : device)
    (d : gmap string pyval) :
  sys_info kd = Ok (VDict d) ->
  AztechPlug.__init__ kd idx = Ok dev \/ AztechBulb.__init__ kd idx = Ok dev ->
  exists model alias,
    d !! "model" = Some model /\
    alias_of idx d = Some alias /\
    description dev = model /\
    name dev = (if Py.bool alias then alias else model).
Proof.
  intros Hsys Hinit.
  assert (Hbase : exists base, AztechDevice.__init__ kd idx = Ok base /\
                    name dev = name base /\ description dev = description base).
  { destruct Hinit as [Hp | Hb];
      [by apply plug_identity | by apply bulb_identity]. }
  destruct Hbase as (base & Hb & -> & ->).
  apply device_naming in Hb as (d' & model & alias & Hs & Hm & Ha & ->).
  rewrite Hsys in Hs. injection Hs as <-.
  exists model, alias. done.
Qed.

End Naming.

(** ** What construction depends on, and when it fails *)

Section ConstructionReads.
Context `{Externals}.

(** X4: the constructor of a plug reads the status and, only when the status
    lists the energy meter, the energy snapshot: two handles that agree on
    those give the same device or the same exception, whatever their other
    answers are. *)
Theorem plug_reads (kd kd' : kyla_dev) (idx : Z) :
  sys_info kd' = sys_info kd ->
  (forall sysinfo, sys_info kd = Ok sysinfo ->
                   AztechPlug.has_emeter sysinfo = Ok true ->
                   get_emeter_realtime kd' = get_emeter_realtime kd) ->
  AztechPlug.__init__ kd' idx = AztechPlug.__init__ kd idx.
Proof.
  intros Hsys Hem.
  unfold AztechPlug.__init__, AztechDevice.__init__. rewrite Hsys.
  destruct (sys_info kd) as [sysinfo|e] eqn:Hs; [| done].
  specialize (Hem sysinfo eq_refl). simpl.
  destruct (Py.getitem sysinfo "model") as [model|]; simpl; [| done].
  match goal with
  | |- ?m ≫= _ = _ => destruct m as [alias|]; simpl; [| done]
  end.
  destruct (Py.contains sysinfo "dev_name") as [has_name|]; simpl; [| done].
  match goal with
  | |- ?m ≫= _ = _ => destruct m as [is_plug|]; simpl; [| done]
  end.
  destruct (AztechPlug.has_emeter sysinfo) as [[]|]; simpl; [| done | done].
  unfold AztechPlug.init_emeter. by rewrite Hem.
Qed.


End ConstructionReads.

(** ** Bulb capabilities *)

Lemma bulb_tags (color variable : bool) (rgb lo hi : pyval) (t : Z)
    (mode : string) (level : option Z) (p : pyval) (on : bool) (idx : Z)
    (dev : device) :
  bulb_built color variable rgb lo hi t mode level p on idx dev ->
  ("ColorControl" ∈ _type dev <-> color || variable = true) /\
  ("EnergyMonitor" ∈ _type dev <-> Py.is_not_none p = true) /\
  ("MultiLevelSwitch" ∉ _type dev) /\
  sublist (_type dev) ["OnOffSwitch"; "Light"; "ColorControl"; "EnergyMonitor"].
Proof.
  intros [_ Ht _ _ _ _ _]. rewrite Ht.
  destruct (color || variable), (Py.is_not_none p); simpl;
    rewrite ?elem_of_cons, ?elem_of_nil;
    (split; [| split; [| split]]);
    try (intuition (try discriminate; auto); fail);
    repeat first [apply sublist_skip | apply sublist_cons | apply sublist_nil].
Qed.

Section BulbFurther.
Context `{Externals}.

(** The energy properties of a constructed bulb. *)
Lemma bulb_energy_inv (kd : kyla_dev) (idx : Z) (dev : device) :
  AztechBulb.__init__ kd idx = Ok dev ->
  exists e p v c,
    get_emeter_realtime kd = Ok e /\
    AztechDevice.power e = Ok p /\
    AztechDevice.voltage e = Ok v /\
    AztechDevice.current e = Ok c /\
    dict_get "instantaneousPower" (properties dev) =
      (if Py.is_not_none p
       then Some (stored "instantaneousPower" power_description p)
       else None) /\
    dict_get "voltage" (properties dev) =
      (if Py.is_not_none v
       then Some (stored "voltage" voltage_description v) else None) /\
    dict_get "current" (properties dev) =
      (if Py.is_not_none c
       then Some (stored "current" current_description c) else None).
Proof.
  unfold AztechBulb.__init__. intros H0.
  inv_bind H0. apply device_init_inv in E as (_ & Hp0 & _).
  cbv zeta in H0. set (dev0 := type_append "Light" _) in H0.
  assert (F0 : forall k, dict_get k (properties dev0) = None)
    by (intros k; subst dev0; simpl; by rewrite Hp0).
  clearbody dev0. clear x Hp0.
  inv_bind H0. rename x into state.
  inv_bind H0. rename x into sysinfo.
  inv_bind H0. rename x into color.
  inv_bind H0. rename x into dev1.
  inv_bind H0. rename x into variable.
  inv_bind H0. rename x into dev2.
  inv_bind H0. rename x into color'.
  inv_bind H0. rename x into both.
  inv_bind H0. rename x into dev3.
  inv_bind H0. rename x into dim.
  inv_bind H0. rename x into dev4.
  inv_bind H0. rename x into dev5.
  inv_bind H0. rename x into on. inv_Ok H0.
  set (energy k := k = "instantaneousPower" \/ k = "voltage" \/ k = "current").
  assert (F1 : forall k, energy k -> dict_get k (properties dev1) = None).
  { intros k Hk. destruct color; [| inv_Ok E2; apply F0].
    unfold AztechBulb.init_color in E2. cbv zeta in E2.
    inv_bind E2. destruct x as [[h s] val]. inv_bind E2. inv_Ok E2.
    simpl. rewrite dict_get_set_ne, F0; [done |].
    destruct Hk as [-> | [-> | ->]]; done. }
  assert (F2 : forall k, energy k -> dict_get k (properties dev2) = None).
  { intros k Hk. destruct variable; [| inv_Ok E4; by apply F1].
    unfold AztechBulb.init_color_temp in E4. cbv zeta in E4.
    repeat inv_bind E4. inv_Ok E4. simpl.
    rewrite dict_get_set_ne; [| destruct Hk as [-> | [-> | ->]]; done].
    destruct (negb _); simpl; by apply F1. }
  assert (F3 : forall k, energy k -> dict_get k (properties dev3) = None).
  { intros k Hk. destruct both; [| inv_Ok E7; by apply F2].
    inv_bind E7. inv_Ok E7. simpl.
    rewrite dict_get_set_ne; [by apply F2 |].
    destruct Hk as [-> | [-> | ->]]; done. }
  assert (F4 : forall k, energy k -> dict_get k (properties dev4) = None).
  { intros k Hk. destruct dim; [| inv_Ok E9; by apply F3].
    inv_bind E9. inv_Ok E9. simpl.
    rewrite dict_get_set_ne; [by apply F3 |].
    destruct Hk as [-> | [-> | ->]]; done. }
  apply bulb_init_emeter_inv in E10
    as (e & p & v & c & He & Hpow & Hvol & Hcur & [_ _ Hp Hv Hc _]).
  exists e, p, v, c. repeat (split; [done |]). simpl.
  rewrite !dict_get_set_ne by done. rewrite Hp, Hv, Hc.
  rewrite !F4 by (unfold energy; auto). done.
Qed.

(** X7: a constructed bulb has the colour property exactly when its status
    indicates colour, the colour-temperature property exactly when it
    indicates variable colour temperature, with the bounds the vendor
    reports, and the level property exactly when it indicates dimming;
    "ColorControl" is in the type list exactly when one of the first two is
    indicated, and dimming adds no tag. *)
Theorem bulb_capabilities (kd : kyla_dev) (idx : Z) (dev : device)
    (d : gmap string pyval) :
  sys_info kd = Ok (VDict d) ->
  AztechBulb.__init__ kd idx = Ok dev ->
  (is_Some (dict_get "color" (properties dev)) <-> indicates d "is_color") /\
  (is_Some (dict_get "colorTemperature" (properties dev))
   <-> indicates d "is_variable_color_temp") /\
  (is_Some (dict_get "level" (properties dev))
   <-> indicates d "is_dimmable") /\
  ("ColorControl" ∈ _type dev
   <-> indicates d "is_color" \/ indicates d "is_variable_color_temp") /\
  ("MultiLevelSwitch" ∉ _type dev) /\
  (forall p, dict_get "colorTemperature" (properties dev) = Some p ->
             exists range lo hi,
               valid_temperature_range kd = Ok range /\
               Py.getindex range 0 = Ok lo /\
               Py.getindex range 1 = Ok hi /\
               prop_description p !! "minimum" = Some lo /\
               prop_description p !! "maximum" = Some hi).
Proof.
  intros Hsys Hinit.
  apply bulb_init_inv in Hinit
    as (state & sysinfo & color & variable & rgb & lo & hi & t & mode
        & level & p & on & _ & Hs & Hcol & Hvar & _ & Htemp & _ & Hdim
        & _ & _ & _ & Hbuilt).
  rewrite Hsys in Hs. inv_Ok Hs.
  apply bulb_flag_spec in Hcol, Hvar, Hdim.
  pose proof (bulb_tags _ _ _ _ _ _ _ _ _ _ _ _ Hbuilt) as (Hcc & _ & Hml & _).
  destruct Hbuilt as [_ _ Hc Ht _ Hl _].
  split; [| split; [| split; [| split; [| split]]]].
  - rewrite Hc, <- Hcol. destruct color; rewrite is_Some_alt; done.
  - rewrite Ht, <- Hvar. destruct variable; rewrite is_Some_alt; done.
  - rewrite Hl, fmap_is_Some, <- Hdim, bool_decide_eq_true. done.
  - rewrite Hcc, orb_true_iff, Hcol, Hvar. done.
  - done.
  - intros q Hq. rewrite Ht in Hq. destruct variable; [| done].
    injection Hq as <-. destruct Htemp as (_ & range & Hr & Hlo & Hhi); [done |].
    exists range, lo, hi. repeat split; done.
Qed.

(** X8: a bulb reads its energy snapshot whatever its status lists: the
    "EnergyMonitor" tag and the power property are there exactly when the
    snapshot has a power reading, and the voltage and current properties
    exactly when it has theirs. *)
Theorem bulb_energy (kd : kyla_dev) (idx : Z) (dev : device) :
  AztechBulb.__init__ kd idx = Ok dev ->
  exists e p v c,
    get_emeter_realtime kd = Ok e /\
    AztechDevice.power e = Ok p /\
    AztechDevice.voltage e = Ok v /\
    AztechDevice.current e = Ok c /\
    ("EnergyMonitor" ∈ _type dev <-> p <> VNone) /\
    (is_Some (dict_get "instantaneousPower" (properties dev)) <-> p <> VNone) /\
    (is_Some (dict_get "voltage" (properties dev)) <-> v <> VNone) /\
    (is_Some (dict_get "current" (properties dev)) <-> c <> VNone) /\
    (forall q, dict_get "instantaneousPower" (properties dev) = Some q ->
               prop_value q = p) /\
    (forall q, dict_get "voltage" (properties dev) = Some q ->
               prop_value q = v) /\
    (forall q, dict_get "current" (properties dev) = Some q ->
               prop_value q = c).
Proof.
  intros Hinit.
  pose proof (bulb_energy_inv _ _ _ Hinit)
    as (e & p & v & c & He & Hpow & Hvol & Hcur & Hp & Hv & Hc).
  apply bulb_init_inv in Hinit
    as (state & sysinfo & color & variable & rgb & lo & hi & t & mode
        & level & p' & on & _ & _ & _ & _ & _ & _ & _ & _ & _
        & (e' & He' & Hpow') & _ & Hbuilt).
  rewrite He in He'. injection He' as <-.
  rewrite Hpow in Hpow'. injection Hpow' as <-.
  apply bulb_tags in Hbuilt as (_ & Hem & _).
  assert (Hnn : forall x, Py.is_not_none x = true <-> x <> VNone)
    by (intros []; simpl; split; done).
  exists e, p, v, c. repeat (split; [done |]).
  rewrite Hem, Hp, Hv, Hc, <- !Hnn.
  destruct (Py.is_not_none p), (Py.is_not_none v), (Py.is_not_none c);
    rewrite ?is_Some_alt; repeat split; try done;
    by intros q [= <-].
Qed.

(** X9: every constructed bulb is an on/off light whose "on" property is the
    boolean of the light state's [on_off] flag. *)
Theorem bulb_switch (kd : kyla_dev) (idx : Z) (dev : device) :
  AztechBulb.__init__ kd idx = Ok dev ->
  exists st flag rest,
    get_light_state kd = Ok (VDict st) /\
    st !! "on_off" = Some flag /\
    dict_get "on" (properties dev)
    = Some (stored "on" on_description (VBool (Py.bool flag))) /\
    _type dev = "OnOffSwitch" :: "Light" :: rest /\
    index dev = idx.
Proof.
  intros Hinit.
  apply bulb_init_inv in Hinit
    as (state & sysinfo & color & variable & rgb & lo & hi & t & mode
        & level & p & on & Hst & _ & _ & _ & _ & _ & _ & _ & _
        & _ & Hon & [Hi Ht _ _ _ _ Ho]).
  unfold AztechBulb.is_on in Hon. inv_bind Hon. inv_Ok Hon.
  destruct state as [| | | | | |st]; try discriminate E.
  simpl in E. destruct (st !! "on_off") as [flag|] eqn:Hflag; [| done].
  injection E as ->. eexists st, x, _.
  split; [done |]. split; [done |]. split; [exact Ho |].
  split; [rewrite Ht; reflexivity | done].
Qed.

End BulbFurther.

(** ** Layout of a constructed device *)

Ltac solve_sublist :=
  repeat first [apply sublist_nil | apply sublist_skip | apply sublist_cons].

Lemma dict_set_names {A} (k : string) (v : A) (l : list (string * A)) :
  k ∉ l.*1 -> (dict_set k v l).*1 = l.*1 ++ [k].
Proof.
  induction l as [|[k' v'] l IH]; simpl; [done |].
  rewrite not_elem_of_cons. intros [Hne Hnot].
  apply String.eqb_neq in Hne. rewrite Hne. simpl. f_equal. by apply IH.
Qed.

Lemma dict_set_names_present {A} (k : string) (v : A) (l : list (string * A)) :
  k ∈ l.*1 -> (dict_set k v l).*1 = l.*1.
Proof.
  induction l as [|[k' v'] l IH]; simpl; [by intros ?%elem_of_nil |].
  destruct (String.eqb_spec k k') as [-> | Hne]; simpl; [done |].
  rewrite elem_of_cons. intros [? | Hin]; [done |]. f_equal. by apply IH.
Qed.

Ltac solve_NoDup :=
  repeat (apply NoDup_cons_2;
          [rewrite ?elem_of_cons, ?elem_of_nil; intuition discriminate |]);
  apply NoDup_nil_2.

Section Layout.
Context `{Externals}.

Lemma plug_init_emeter_names (kd : kyla_dev) (dev dev' : device) :
  AztechPlug.init_emeter kd dev = Ok dev' ->
  properties dev = [] ->
  sublist (property_names dev') ["instantaneousPower"; "voltage"; "current"].
Proof.
  unfold AztechPlug.init_emeter, property_names. intros H0 Hnil.
  inv_bind H0. inv_bind H0. cbv zeta in H0. inv_bind H0. inv_bind H0.
  inv_Ok H0.
  destruct (Py.is_not_none x0), (Py.is_not_none x1), (Py.is_not_none x2);
    simpl; rewrite Hnil; simpl; solve_sublist.
Qed.

Lemma cond_set_names (b : bool) (k : string) (descr : gmap string pyval)
    (v : pyval) (dev : device) :
  k ∉ property_names dev ->
  property_names (if b then set_property k descr v dev else dev)
  = property_names dev ++ (if b then [k] else []).
Proof.
  intros Hk. destruct b; [| by rewrite app_nil_r].
  by apply dict_set_names.
Qed.

Lemma bulb_init_emeter_names (kd : kyla_dev) (dev dev' : device) :
  AztechBulb.init_emeter kd dev = Ok dev' ->
  "instantaneousPower" ∉ property_names dev ->
  "voltage" ∉ property_names dev ->
  "current" ∉ property_names dev ->
  exists energy,
    property_names dev' = property_names dev ++ energy /\
    sublist energy ["instantaneousPower"; "voltage"; "current"].
Proof.
  unfold AztechBulb.init_emeter. intros H0 Hp Hv Hc.
  inv_bind H0. inv_bind H0. cbv zeta in H0. inv_bind H0. inv_bind H0.
  inv_Ok H0.
  set (dev1 := if Py.is_not_none x0 then _ else dev).
  assert (N1 : property_names dev1
               = property_names dev
                   ++ (if Py.is_not_none x0 then ["instantaneousPower"] else [])).
  { subst dev1. destruct (Py.is_not_none x0); [| by rewrite app_nil_r].
    by apply dict_set_names. }
  clearbody dev1.
  rewrite !cond_set_names, N1.
  - eexists. rewrite <- !app_assoc. split; [reflexivity |].
    destruct (Py.is_not_none x0), (Py.is_not_none x1), (Py.is_not_none x2);
      simpl; solve_sublist.
  - rewrite N1, elem_of_app. intros [? | Hin]; [done |].
    destruct (Py.is_not_none x0); [| by apply elem_of_nil in Hin].
    by apply list_elem_of_singleton in Hin.
  - rewrite cond_set_names, N1, !elem_of_app.
    + intros [[? | Hin] | Hin]; [done | |].
      * destruct (Py.is_not_none x0); [| by apply elem_of_nil in Hin].
        by apply list_elem_of_singleton in Hin.
      * destruct (Py.is_not_none x1); [| by apply elem_of_nil in Hin].
        by apply list_elem_of_singleton in Hin.
    + rewrite N1, elem_of_app. intros [? | Hin]; [done |].
      destruct (Py.is_not_none x0); [| by apply elem_of_nil in Hin].
      by apply list_elem_of_singleton in Hin.
Qed.

Lemma plug_property_names (kd : kyla_dev) (idx : Z) (dev : device) :
  AztechPlug.__init__ kd idx = Ok dev ->
  sublist (property_names dev)
    ["instantaneousPower"; "voltage"; "current"; "level"; "on"; "led-on"] /\
  exists optional, property_names dev = optional ++ ["on"; "led-on"].
Proof.
  unfold AztechPlug.__init__. intros H0.
  inv_bind H0. apply device_init_inv in E as (_ & Hp0 & _).
  cbv zeta in H0. inv_bind H0. rename x0 into sysinfo.
  inv_bind H0. rename x0 into has_name.
  inv_bind H0. rename x0 into is_plug.
  inv_bind H0. rename x0 into hm.
  inv_bind H0. rename x0 into dev1.
  inv_bind H0. rename x0 into dim.
  inv_bind H0. rename x0 into dev2.
  inv_bind H0. rename x0 into on.
  inv_bind H0. rename x0 into led. inv_Ok H0.
  set (dev0 := if is_plug then _ else _) in E3.
  assert (Hnil : properties dev0 = [])
    by (subst dev0; destruct is_plug; done).
  clearbody dev0.
  assert (Hsub : sublist (property_names dev1)
                   ["instantaneousPower"; "voltage"; "current"]).
  { destruct hm.
    - by apply plug_init_emeter_names in E3.
    - inv_Ok E3. unfold property_names. rewrite Hnil. solve_sublist. }
  assert (Hin : forall k, k ∈ property_names dev1 ->
                  k = "instantaneousPower" \/ k = "voltage" \/ k = "current").
  { intros k Hk. eapply sublist_submseteq, elem_of_submseteq in Hsub; [| done].
    rewrite !elem_of_cons, elem_of_nil in Hsub. tauto. }
  unfold property_names in *.
  assert (Hlevel : exists level,
             (properties dev2).*1 = (properties dev1).*1 ++ level /\
             sublist level ["level"]).
  { destruct dim.
    - inv_bind E5. inv_Ok E5. simpl. exists ["level"]. split; [| done].
      apply dict_set_names. intros Hk%Hin. intuition discriminate.
    - inv_Ok E5. exists []. rewrite app_nil_r. split; [done | solve_sublist]. }
  destruct Hlevel as (level & Hl & Hlsub).
  assert (Hin2 : forall k, k ∈ (properties dev2).*1 ->
                   k <> "on" /\ k <> "led-on").
  { intros k. rewrite Hl, elem_of_app. intros [Hk%Hin | Hk].
    - intuition (subst; discriminate).
    - eapply sublist_submseteq, elem_of_submseteq in Hlsub; [| done].
      apply list_elem_of_singleton in Hlsub as ->. done. }
  simpl. rewrite !dict_set_names.
  - rewrite Hl. split.
    + rewrite <- !app_assoc.
      change ["instantaneousPower"; "voltage"; "current"; "level"; "on"; "led-on"]
        with (["instantaneousPower"; "voltage"; "current"]
                ++ ["level"] ++ ["on"; "led-on"]).
      apply sublist_app; [done |]. apply sublist_app; [done | solve_sublist].
    + exists ((properties dev1).*1 ++ level). by rewrite <- !app_assoc.
  - intros Hk%Hin2. by destruct Hk.
  - rewrite dict_set_names by (intros Hk%Hin2; by destruct Hk).
    rewrite elem_of_app, list_elem_of_singleton.
    intros [Hk%Hin2 | ?]; [by destruct Hk | done].
Qed.

Lemma bulb_property_names (kd : kyla_dev) (idx : Z) (dev : device) :
  AztechBulb.__init__ kd idx = Ok dev ->
  sublist (property_names dev)
    ["color"; "colorTemperature"; "colorMode"; "level";
     "instantaneousPower"; "voltage"; "current"; "on"] /\
  exists optional, property_names dev = optional ++ ["on"].
Proof.
  unfold AztechBulb.__init__. intros H0.
  inv_bind H0. apply device_init_inv in E as (_ & Hp0 & _).
  cbv zeta in H0. set (dev0 := type_append "Light" _) in H0.
  assert (N0 : property_names dev0 = [])
    by (subst dev0; unfold property_names; simpl; by rewrite Hp0).
  clearbody dev0. clear x Hp0.
  inv_bind H0. rename x into state.
  inv_bind H0. rename x into sysinfo.
  inv_bind H0. rename x into color.
  inv_bind H0. rename x into dev1.
  inv_bind H0. rename x into variable.
  inv_bind H0. rename x into dev2.
  inv_bind H0. rename x into color'.
  inv_bind H0. rename x into both.
  inv_bind H0. rename x into dev3.
  inv_bind H0. rename x into dim.
  inv_bind H0. rename x into dev4.
  inv_bind H0. rename x into dev5.
  inv_bind H0. rename x into on. inv_Ok H0.
  assert (N1 : property_names dev1 = if color then ["color"] else []).
  { destruct color; [| by inv_Ok E2].
    unfold AztechBulb.init_color in E2. cbv zeta in E2.
    inv_bind E2. destruct x as [[h s] val]. inv_bind E2. inv_Ok E2.
    unfold property_names in *. simpl.
    rewrite dict_set_names; rewrite N0; [done | apply not_elem_of_nil]. }
  assert (N2 : property_names dev2
               = property_names dev1
                   ++ (if variable then ["colorTemperature"] else [])).
  { destruct variable; [| inv_Ok E4; by rewrite app_nil_r].
    unfold AztechBulb.init_color_temp in E4. cbv zeta in E4.
    repeat inv_bind E4. inv_Ok E4.
    unfold property_names in *. simpl.
    assert (Hsame : (properties
                       (if negb (bool_decide ("ColorControl" ∈ _type dev1))
                        then type_append "ColorControl" dev1 else dev1)).*1
                    = (properties dev1).*1) by (by destruct (negb _)).
    rewrite dict_set_names; rewrite Hsame; [done |].
    rewrite N1. destruct color; [| apply not_elem_of_nil].
    by intros ?%list_elem_of_singleton. }
  assert (N3 : property_names dev3
               = property_names dev2 ++ (if both then ["colorMode"] else [])).
  { destruct both; [| inv_Ok E7; by rewrite app_nil_r].
    inv_bind E7. inv_Ok E7. unfold property_names in *. simpl.
    apply dict_set_names. rewrite N2, N1.
    destruct color, variable; simpl;
      rewrite ?elem_of_cons, ?elem_of_nil; intuition discriminate. }
  assert (N4 : property_names dev4
               = property_names dev3 ++ (if dim then ["level"] else [])).
  { destruct dim; [| inv_Ok E9; by rewrite app_nil_r].
    inv_bind E9. inv_Ok E9. unfold property_names in *. simpl.
    apply dict_set_names. rewrite N3, N2, N1.
    destruct color, variable, both; simpl;
      rewrite ?elem_of_cons, ?elem_of_nil; intuition discriminate. }
  assert (N4' : exists front,
             property_names dev4 = front /\
             sublist front ["color"; "colorTemperature"; "colorMode"; "level"]).
  { eexists. split; [reflexivity |]. rewrite N4, N3, N2, N1.
    destruct color, variable, both, dim; simpl; solve_sublist. }
  destruct N4' as (front & Hfront & Hsub).
  assert (Hin : forall k, k ∈ front ->
                  k = "color" \/ k = "colorTemperature" \/
                  k = "colorMode" \/ k = "level").
  { intros k Hk. eapply sublist_submseteq, elem_of_submseteq in Hsub; [| done].
    rewrite !elem_of_cons, elem_of_nil in Hsub. tauto. }
  apply bulb_init_emeter_names in E10 as (energy & N5 & Hen);
    try (rewrite Hfront; intros Hk%Hin; intuition discriminate).
  assert (Hin5 : forall k, k ∈ energy ->
                   k = "instantaneousPower" \/ k = "voltage" \/ k = "current").
  { intros k Hk. eapply sublist_submseteq, elem_of_submseteq in Hen; [| done].
    rewrite !elem_of_cons, elem_of_nil in Hen. tauto. }
  unfold property_names in *. simpl. rewrite dict_set_names.
  - rewrite N5, Hfront. split; [| by eexists].
    rewrite <- app_assoc.
    change ["color"; "colorTemperature"; "colorMode"; "level";
            "instantaneousPower"; "voltage"; "current"; "on"]
      with (["color"; "colorTemperature"; "colorMode"; "level"]
              ++ ["instantaneousPower"; "voltage"; "current"] ++ ["on"]).
    apply sublist_app; [done |]. apply sublist_app; [done | solve_sublist].
  - rewrite N5, Hfront, elem_of_app.
    intros [Hk%Hin | Hk%Hin5]; intuition discriminate.
Qed.

Lemma plug_type_sublist (is_plug : bool) (p v c : pyval) (level : option Z)
    (on led : bool) (idx : Z) (dev : device) :
  plug_built is_plug p v c level on led idx dev ->
  sublist (_type dev)
    ["OnOffSwitch"; "SmartPlug"; "EnergyMonitor"; "MultiLevelSwitch"].
Proof.
  intros [_ Ht _ _ _ _ _ _]. rewrite Ht.
  destruct is_plug, (Py.is_not_none p), level; simpl; solve_sublist.
Qed.

(** X6: the type list and the property names of a constructed device follow one
    fixed order, each tag and each name at most once: a plug always starts
    with "OnOffSwitch" and ends with the properties "on" and "led-on", a
    bulb always starts with "OnOffSwitch" and "Light" and ends with the
    property "on". *)
Theorem construction_layout (kd : kyla_dev) (idx : Z) (dev : device) :
  (AztechPlug.__init__ kd idx = Ok dev ->
   sublist (_type dev)
     ["OnOffSwitch"; "SmartPlug"; "EnergyMonitor"; "MultiLevelSwitch"] /\
   sublist (property_names dev)
     ["instantaneousPower"; "voltage"; "current"; "level"; "on"; "led-on"] /\
   (exists tags, _type dev = "OnOffSwitch" :: tags) /\
   (exists optional, property_names dev = optional ++ ["on"; "led-on"]) /\
   NoDup (_type dev) /\ NoDup (property_names dev)) /\
  (AztechBulb.__init__ kd idx = Ok dev ->
   sublist (_type dev)
     ["OnOffSwitch"; "Light"; "ColorControl"; "EnergyMonitor"] /\
   sublist (property_names dev)
     ["color"; "colorTemperature"; "colorMode"; "level";
      "instantaneousPower"; "voltage"; "current"; "on"] /\
   (exists tags, _type dev = "OnOffSwitch" :: "Light" :: tags) /\
   (exists optional, property_names dev = optional ++ ["on"]) /\
   NoDup (_type dev) /\ NoDup (property_names dev)).
Proof.
  split; intros Hinit.
  - pose proof (plug_property_names _ _ _ Hinit) as (Hnames & Hlast).
    apply plug_init_inv in Hinit
      as (sysinfo & is_plug & hm & p & v & c & level & on & led
          & _ & _ & _ & _ & _ & _ & _ & _ & Hbuilt).
    pose proof (plug_type_sublist _ _ _ _ _ _ _ _ _ Hbuilt) as Htypes.
    destruct Hbuilt as [_ Ht _ _ _ _ _ _].
    repeat split; try done.
    + rewrite Ht. eauto.
    + eapply sublist_NoDup; [| exact Htypes].
      solve_NoDup.
    + eapply sublist_NoDup; [| exact Hnames].
      solve_NoDup.
  - pose proof (bulb_property_names _ _ _ Hinit) as (Hnames & Hlast).
    apply bulb_init_inv in Hinit
      as (state & sysinfo & color & variable & rgb & lo & hi & t & mode
          & level & p & on & _ & _ & _ & _ & _ & _ & _ & _ & _
          & _ & _ & Hbuilt).
    pose proof (bulb_tags _ _ _ _ _ _ _ _ _ _ _ _ Hbuilt) as (_ & _ & _ & Htypes).
    destruct Hbuilt as [_ Ht _ _ _ _ _].
    repeat split; try done.
    + rewrite Ht. simpl. eauto.
    + eapply sublist_NoDup; [| exact Htypes].
      solve_NoDup.
    + eapply sublist_NoDup; [| exact Hnames].
      solve_NoDup.
Qed.

End Layout.

(** ** A plain relay *)

Section PlainRelay.
Context `{Externals}.

(** X3: on the status of a single relay without energy meter and without
    dimmer (model, alias, string feature list without the energy token, a
    relay state, an integer or boolean LED flag, and a device name that is
    a string when there is one) construction succeeds, and the device is
    fully determined: its tags, its name and its two properties. *)
Theorem plain_relay (kd : kyla_dev) (idx : Z) (d : gmap string pyval)
    (model alias relay led : pyval) (feature : string)
    (dev_name : option string) (z : Z) :
  sys_info kd = Ok (VDict d) ->
  idx < 0 ->
  d !! "model" = Some model ->
  d !! "alias" = Some alias ->
  d !! "dev_name" = VStr <$> dev_name ->
  d !! "feature" = Some (VStr feature) ->
  FEATURE_ENERGY_METER ∉ Py.str_split ":" feature ->
  d !! "brightness" = None ->
  d !! "relay_state" = Some relay ->
  d !! "led_off" = Some led ->
  Py.as_int led = Some z ->
  AztechPlug.__init__ kd idx =
  Ok {| _type :=
          "OnOffSwitch"
            :: (if from_option (Py.str_contains "Light Switch") false dev_name
                then [] else ["SmartPlug"]);
        index := idx;
        name := if Py.bool alias then alias else model;
        description := model;
        properties :=
          [("on", stored "on" on_description (VBool (Py.bool relay)));
           ("led-on", stored "led-on" AztechPlug.led_description
                        (VBool (negb (z =? 1))))] |}.
Proof.
  intros Hsys Hidx Hmodel Halias Hname Hfeat Htok Hbr Hrelay Hled Hz.
  assert (Hneg : (0 <=? idx) = false) by (apply Z.leb_gt; lia).
  unfold AztechPlug.__init__, AztechDevice.__init__.
  rewrite Hsys. simpl. rewrite Hmodel. simpl. rewrite Hneg. simpl.
  rewrite Halias. simpl. rewrite Hname.
  unfold AztechPlug.has_emeter, AztechPlug.is_dimmable, AztechPlug.is_on,
    AztechPlug.is_led_on.
  assert (Hdiff : Py.sub (VInt 1) led = Ok (VInt (1 - z)))
    by (unfold Py.sub; simpl; by rewrite Hz).
  assert (Hb : (1 - z =? 0) = (z =? 1)).
  { apply eq_iff_eq_true. rewrite !Z.eqb_eq. lia. }
  destruct dev_name as [s|]; simpl.
  - destruct (Py.str_contains "Light Switch" s); simpl;
      rewrite Hfeat; simpl; rewrite (bool_decide_eq_false_2 _ Htok); simpl;
      rewrite Hbr; simpl; rewrite Hneg; simpl; rewrite Hrelay; simpl;
      rewrite Hled; simpl; rewrite Hdiff; simpl; rewrite Hb;
      by destruct (Py.bool alias).
  - rewrite Hfeat; simpl; rewrite (bool_decide_eq_false_2 _ Htok); simpl;
      rewrite Hbr; simpl; rewrite Hneg; simpl; rewrite Hrelay; simpl;
      rewrite Hled; simpl; rewrite Hdiff; simpl; rewrite Hb;
      by destruct (Py.bool alias).
Qed.

End PlainRelay.

(** ** The polling loop: what ends it *)

Section PollingFurther.
Context `{Externals} `{PropertyClasses}.

Lemma handler_escapes (e : exn) :
  e <> SmartDeviceException -> handler e = Escaped e.
Proof. by destruct e. Qed.

(** X16: only the vendor's communication error is absorbed.  Any other exception
    raised by a fetch, or by reading the feature list of the status, leaves
    the loop: it ends with that exception before any property is
    refreshed, and the later answers are never asked for.  In particular a
    status without a [feature] field ends the polling of a plug with a
    [KeyError]. *)
Theorem poll_ends_on_other_exception (kd : kyla_dev) (rest : list kyla_dev)
    (dev : device) (e : exn) :
  e <> SmartDeviceException ->
  (sys_info kd = Raise e \/
   (exists sysinfo,
       sys_info kd = Ok sysinfo /\ sysinfo <> VNone /\
       (AztechPlug.has_emeter sysinfo = Raise e \/
        (AztechPlug.has_emeter sysinfo = Ok true /\
         get_emeter_realtime kd = Raise e))) ->
   exists tr, AztechPlug.poll (kd :: rest) dev = (dev, tr, Some e) /\
              updates_of tr = []) /\
  (sys_info kd = Raise e \/
   (exists sysinfo,
       sys_info kd = Ok sysinfo /\ sysinfo <> VNone /\
       (get_emeter_realtime kd = Raise e \/
        (exists emeter, get_emeter_realtime kd = Ok emeter /\
                        get_light_state kd = Raise e))) ->
   exists tr, AztechBulb.poll (kd :: rest) dev = (dev, tr, Some e) /\
              updates_of tr = []) /\
  (forall d, sys_info kd = Ok (VDict d) -> d !! "feature" = None ->
             AztechPlug.poll (kd :: rest) dev
             = (dev, [EvSleep _POLL_INTERVAL; EvSysInfo], Some KeyError)).
Proof.
  intros He.
  unfold AztechPlug.poll, AztechBulb.poll.
  unfold poll_loop, AztechPlug.poll_cycle, AztechBulb.poll_cycle.
  split; [| split].
  - intros [-> | (sysinfo & -> & Hnn & [-> | [-> ->]])].
    + rewrite (handler_escapes _ He). eauto.
    + destruct sysinfo; try done; rewrite (handler_escapes _ He); eauto.
    + destruct sysinfo; try done; rewrite (handler_escapes _ He); eauto.
  - intros [-> | (sysinfo & -> & Hnn & [-> | (emeter & -> & ->)])].
    + rewrite (handler_escapes _ He). eauto.
    + destruct sysinfo; try done; rewrite (handler_escapes _ He); eauto.
    + destruct sysinfo; try done; rewrite (handler_escapes _ He); eauto.
  - intros d -> Hf. unfold AztechPlug.has_emeter. simpl. rewrite Hf. done.
Qed.

End PollingFurther.

(** ** The feature list *)

Lemma str_split_piece (sep : ascii) (x rest : string) :
  Py.str_contains (String sep "") x = false ->
  Py.str_split sep (x +:+ String sep rest) = x :: Py.str_split sep rest /\
  Py.str_split sep x = [x].
Proof.
  induction x as [|c x IH]; simpl.
  - intros _. by rewrite Ascii.eqb_refl.
  - rewrite orb_false_iff, andb_false_iff. intros [[Hc | ?] Hx]; [| done].
    rewrite Ascii.eqb_sym in Hc. rewrite Hc.
    destruct (IH Hx) as [-> ->]. done.
Qed.

Lemma str_split_join (sep : ascii) (l : list string) :
  l <> [] ->
  Forall (fun x => Py.str_contains (String sep "") x = false) l ->
  Py.str_split sep (str_join sep l) = l.
Proof.
  intros Hne Hall. induction Hall as [|x l Hx Hall IH]; [done |].
  destruct l as [|y l].
  - simpl. by apply str_split_piece.
  - change (str_join sep (x :: y :: l))
      with (x +:+ String sep (str_join sep (y :: l))).
    destruct (str_split_piece sep x (str_join sep (y :: l)) Hx) as [-> _].
    by rewrite IH.
Qed.

Section FeatureList.
Context `{Externals}.

(** X13: on a feature list written as colon-free tokens joined by colons,
    [has_emeter] holds exactly when the energy-meter token is one of the
    tokens, wherever it stands; a status without feature list raises
    [KeyError] and a feature list that is not a string [AttributeError]. *)
Theorem has_emeter_tokens (d : gmap string pyval) :
  (forall tokens,
      tokens <> [] ->
      Forall (fun x => Py.str_contains ":" x = false) tokens ->
      d !! "feature" = Some (VStr (str_join ":" tokens)) ->
      AztechPlug.has_emeter (VDict d)
      = Ok (bool_decide (FEATURE_ENERGY_METER ∈ tokens))) /\
  (d !! "feature" = None ->
   AztechPlug.has_emeter (VDict d) = Raise KeyError) /\
  (forall v, d !! "feature" = Some v -> (forall s, v <> VStr s) ->
             AztechPlug.has_emeter (VDict d) = Raise AttributeError).
Proof.
  unfold AztechPlug.has_emeter. simpl. split; [| split].
  - intros tokens Hne Hall ->. simpl. by rewrite str_split_join.
  - by intros ->.
  - intros v -> Hv. destruct v; try done. by destruct (Hv s).
Qed.

End FeatureList.

(** ** Outlets *)

Section Outlets.
Context `{Externals}.

(** X14: an outlet index past the last child of the status raises [IndexError],
    in [is_on] and already in the constructor; a non-negative index on a
    status without children raises [KeyError]. *)
Theorem outlet_out_of_range (kd : kyla_dev) (idx : Z) (d : gmap string pyval)
    (model : pyval) :
  sys_info kd = Ok (VDict d) ->
  d !! "model" = Some model ->
  0 <= idx ->
  (forall children,
      d !! "children" = Some (VList children) ->
      Z.of_nat (length children) <= idx ->
      AztechPlug.is_on idx (VDict d) = Raise IndexError /\
      AztechPlug.__init__ kd idx = Raise IndexError /\
      AztechBulb.__init__ kd idx = Raise IndexError) /\
  (d !! "children" = None ->
   AztechPlug.is_on idx (VDict d) = Raise KeyError /\
   AztechPlug.__init__ kd idx = Raise KeyError /\
   AztechBulb.__init__ kd idx = Raise KeyError).
Proof.
  intros Hsys Hmodel Hidx.
  assert (Hpos : (0 <=? idx) = true) by by apply Z.leb_le.
  assert (Hneg : (idx <? 0) = false) by (apply Z.ltb_ge; lia).
  unfold AztechPlug.is_on, AztechPlug.__init__, AztechBulb.__init__,
    AztechDevice.__init__.
  rewrite Hsys, Hpos. simpl. rewrite Hmodel. simpl.
  split.
  - intros children Hch Hlen. rewrite Hch. simpl. rewrite Hneg.
    rewrite (lookup_ge_None_2 children (Z.to_nat idx)) by lia.
    rewrite !Hneg. done.
  - intros Hch. rewrite Hch. done.
Qed.

End Outlets.

(** ** Colour reads *)

Section ColourReads.
Context `{Externals}.

Lemma scaled_value_percent :
  forallb scaled_value_is_floor (Z.of_nat <$> seq 0 101) = true.
Proof. vm_compute. reflexivity. Qed.

Lemma scaled_value_floor (b : Z) :
  0 <= b <= 100 -> scaled_value b = Ok (b * 255 / 100).
Proof.
  intros Hb. pose proof scaled_value_percent as Hall.
  rewrite forallb_forall in Hall.
  specialize (Hall b). unfold scaled_value_is_floor in Hall.
  destruct (scaled_value b) as [v|e].
  - f_equal. apply Z.eqb_eq, Hall.
    apply list_elem_of_In, list_elem_of_fmap. exists (Z.to_nat b).
    split; [lia |]. apply elem_of_seq. lia.
  - discriminate Hall.
    apply list_elem_of_In, list_elem_of_fmap. exists (Z.to_nat b).
    split; [lia |]. apply elem_of_seq. lia.
Qed.

(** X11: for an integer brightness percentage between 0 and 100 in the record
    the reads resolve to, [hsv] returns the hue and saturation as they are
    and the value [b * 255 / 100] rounded down, which lies between 0 and
    255; [brightness] returns the percentage itself. *)
Theorem hsv_scaling (st : gmap string pyval) (flag : pyval)
    (src : gmap string pyval) (hue saturation : pyval) (b : Z) :
  st !! "on_off" = Some flag ->
  (if Py.bool flag then src = st else st !! "dft_on_state" = Some (VDict src)) ->
  src !! "hue" = Some hue ->
  src !! "saturation" = Some saturation ->
  src !! "brightness" = Some (VInt b) ->
  0 <= b <= 100 ->
  AztechBulb.hsv (VDict st) = Ok (hue, saturation, b * 255 / 100) /\
  0 <= b * 255 / 100 <= 255 /\
  AztechBulb.brightness (VDict st) = Ok b.
Proof.
  intros Hflag Hsrc Hh Hs Hb Hrange.
  assert (Hhsv : hsv_of (VDict src) = Ok (hue, saturation, b * 255 / 100)).
  { transitivity (value ← scaled_value b; Ok (hue, saturation, value)).
    - unfold hsv_of, scaled_value. simpl. rewrite Hh, Hs, Hb. simpl.
      destruct (Py.truediv (VInt (b * 255)) (VInt 100)) as [q|]; simpl;
        [| done].
      by destruct (Py.int q).
    - by rewrite (scaled_value_floor b Hrange). }
  assert (Hbr : field_int (VDict src) "brightness" = Ok b).
  { unfold field_int. simpl. by rewrite Hb. }
  split; [| split].
  - destruct (Py.bool flag) eqn:Hon.
    + subst src. rewrite <- Hhsv.
      exact (resolve_on st flag hsv_of Hflag Hon).
    + rewrite <- Hhsv.
      exact (resolve_off st flag (VDict src) hsv_of Hflag Hon Hsrc).
  - split; [apply Z.div_pos; lia |].
    apply Z.div_le_upper_bound; lia.
  - destruct (Py.bool flag) eqn:Hon.
    + subst src. rewrite <- Hbr.
      exact (resolve_on st flag (fun s => field_int s "brightness") Hflag Hon).
    + rewrite <- Hbr.
      exact (resolve_off st flag (VDict src)
               (fun s => field_int s "brightness") Hflag Hon Hsrc).
Qed.

(** X12: a light that is off and has no [dft_on_state] record has no colour
    reads: each of them raises [KeyError], whatever the top-level fields
    hold, and a bulb with a colour, colour-temperature or dimming
    capability cannot be constructed from it. *)
Theorem off_without_default (st : gmap string pyval) (flag : pyval) :
  st !! "on_off" = Some flag ->
  Py.bool flag = false ->
  st !! "dft_on_state" = None ->
  AztechBulb.is_on (VDict st) = Ok false /\
  AztechBulb.hsv (VDict st) = Raise KeyError /\
  AztechBulb.color_temp (VDict st) = Raise KeyError /\
  AztechBulb.color_mode (VDict st) = Raise KeyError /\
  AztechBulb.brightness (VDict st) = Raise KeyError /\
  (forall kd idx d,
      get_light_state kd = Ok (VDict st) ->
      sys_info kd = Ok (VDict d) ->
      indicates d "is_color" \/ indicates d "is_variable_color_temp" \/
      indicates d "is_dimmable" ->
      exists e, AztechBulb.__init__ kd idx = Raise e).
Proof.
  intros Hflag Hoff Hdft.
  assert (Hon : AztechBulb.is_on (VDict st) = Ok false).
  { unfold AztechBulb.is_on. simpl. rewrite Hflag. simpl. by rewrite Hoff. }
  assert (Hhsv : AztechBulb.hsv (VDict st) = Raise KeyError).
  { unfold AztechBulb.hsv. rewrite Hon. simpl. by rewrite Hdft. }
  assert (Hct : AztechBulb.color_temp (VDict st) = Raise KeyError).
  { unfold AztechBulb.color_temp. rewrite Hon. simpl. by rewrite Hdft. }
  assert (Hcm : AztechBulb.color_mode (VDict st) = Raise KeyError).
  { unfold AztechBulb.color_mode. rewrite Hon. simpl. by rewrite Hdft. }
  assert (Hbr : AztechBulb.brightness (VDict st) = Raise KeyError).
  { unfold AztechBulb.brightness. rewrite Hon. simpl. by rewrite Hdft. }
  repeat (split; [done |]).
  intros kd idx d Hst Hsys Hcap.
  destruct (AztechBulb.__init__ kd idx) as [dev|e] eqn:Hinit; [| eauto].
  apply bulb_init_inv in Hinit
    as (state & sysinfo & color & variable & rgb & lo & hi & t & mode
        & level & p & on & Hst' & Hs & Hcol & Hvar & Hc & Hv & _ & Hdim
        & Hl & _ & _ & _).
  rewrite Hst in Hst'. injection Hst' as <-.
  rewrite Hsys in Hs. injection Hs as <-.
  apply bulb_flag_spec in Hcol, Hvar, Hdim.
  destruct Hcap as [Hi | [Hi | Hi]].
  - apply Hcol in Hi. destruct (Hc Hi) as (? & ? & ? & Habs & _). congruence.
  - apply Hvar in Hi. destruct (Hv Hi) as (Habs & _). congruence.
  - apply Hdim, bool_decide_eq_true in Hi. destruct Hi as [z Hz].
    specialize (Hl z Hz). congruence.
Qed.

End ColourReads.

(** ** Energy readings that cannot be read *)

(** X15: a missing energy snapshot ([None]) makes each helper raise [TypeError];
    so does a milli-unit value that is not a number when the base-unit key
    is absent.  When the base-unit key is present the milli-unit key is
    not looked at, whatever it holds. *)
Theorem extraction_errors :
  (AztechDevice.power VNone = Raise TypeError /\
   AztechDevice.voltage VNone = Raise TypeError /\
   AztechDevice.current VNone = Raise TypeError) /\
  (forall (d : gmap string pyval) (v : pyval),
      Py.as_float v = None ->
      (d !! "power" = None -> d !! "power_mw" = Some v ->
       AztechDevice.power (VDict d) = Raise TypeError) /\
      (d !! "voltage" = None -> d !! "voltage_mv" = Some v ->
       AztechDevice.voltage (VDict d) = Raise TypeError) /\
      (d !! "current" = None -> d !! "current_ma" = Some v ->
       AztechDevice.current (VDict d) = Raise TypeError)) /\
  (forall (d : gmap string pyval) (v w : pyval),
      (d !! "power" = Some v ->
       AztechDevice.power (VDict (<["power_mw" := w]> d)) = Ok v) /\
      (d !! "voltage" = Some v ->
       AztechDevice.voltage (VDict (<["voltage_mv" := w]> d)) = Ok v) /\
      (d !! "current" = Some v ->
       AztechDevice.current (VDict (<["current_ma" := w]> d)) = Ok v)).
Proof.
  split; [done |]. split.
  - intros d v Hv.
    assert (Hdiv : Py.truediv v (VInt 1000) = Raise TypeError).
    { unfold Py.truediv. rewrite Hv.
      destruct v; try done; simpl in Hv; discriminate. }
    split; [| split]; intros Hb Hm.
    + rewrite (extraction_reading "power" "power_mw" d : AztechDevice.power _ = _).
      unfold reading. by rewrite Hb, Hm.
    + rewrite (extraction_reading "voltage" "voltage_mv" d
               : AztechDevice.voltage _ = _).
      unfold reading. by rewrite Hb, Hm.
    + rewrite (extraction_reading "current" "current_ma" d
               : AztechDevice.current _ = _).
      unfold reading. by rewrite Hb, Hm.
  - intros d v w. split; [| split]; intros Hb.
    + rewrite (extraction_reading "power" "power_mw" _
               : AztechDevice.power _ = _).
      unfold reading. by rewrite lookup_insert_ne, Hb.
    + rewrite (extraction_reading "voltage" "voltage_mv" _
               : AztechDevice.voltage _ = _).
      unfold reading. by rewrite lookup_insert_ne, Hb.
    + rewrite (extraction_reading "current" "current_ma" _
               : AztechDevice.current _ = _).
      unfold reading. by rewrite lookup_insert_ne, Hb.
Qed.

(** ** The refreshes of a cycle *)

Lemma dict_set_middle {A} (k : string) (v w : A) (l1 l2 : list (string * A)) :
  k ∉ l1.*1 -> dict_set k v (l1 ++ (k, w) :: l2) = l1 ++ (k, v) :: l2.
Proof.
  induction l1 as [|[k' v'] l1 IH]; simpl.
  - intros _. by rewrite String.eqb_refl.
  - rewrite not_elem_of_cons. intros [Hne Hnot].
    apply String.eqb_neq in Hne. rewrite Hne. f_equal. by apply IH.
Qed.

Lemma update_all_map upd (f : property -> property) (base : device)
    (todo : list (string * property)) :
  forall seen,
    (forall d p, index d = index base -> p ∈ todo.*2 -> upd d p = Ok (f p)) ->
    NoDup (seen ++ todo).*1 ->
    update_all upd (with_properties base (seen ++ todo)) todo
    = (with_properties base (seen ++ (prod_map id f <$> todo)),
       EvUpdate <$> todo.*1, None).
Proof.
  induction todo as [|[k p] todo IH]; intros seen Hupd Hnd; simpl; [done |].
  rewrite Hupd; [| done | simpl; by left].
  unfold with_properties at 1. simpl.
  assert (Hk : k ∉ seen.*1).
  { rewrite fmap_app in Hnd. apply NoDup_app in Hnd as (_ & Hdis & _).
    intros Hin. apply (Hdis k Hin). simpl. by left. }
  rewrite dict_set_middle by done.
  specialize (IH (seen ++ [(k, f p)])).
  rewrite <- !app_assoc in IH. simpl in IH.
  unfold with_properties in IH. rewrite IH.
  - reflexivity.
  - intros d q Hd Hq. apply Hupd; [done |]. simpl. by right.
  - rewrite !fmap_app in *. exact Hnd.
Qed.

Lemma update_all_stop upd (f : property -> property) (base : device)
    (before after : list (string * property)) (k : string) (p : property)
    (e : exn) :
  forall seen,
    (forall d q, index d = index base -> q ∈ before.*2 -> upd d q = Ok (f q)) ->
    (forall d, index d = index base -> upd d p = Raise e) ->
    NoDup (seen ++ before ++ (k, p) :: after).*1 ->
    update_all upd (with_properties base (seen ++ before ++ (k, p) :: after))
      (before ++ (k, p) :: after)
    = (with_properties base
         (seen ++ (prod_map id f <$> before) ++ (k, p) :: after),
       EvUpdate <$> (before.*1 ++ [k]), Some e).
Proof.
  induction before as [|[k' q] before IH]; intros seen Hupd Hraise Hnd; simpl.
  - by rewrite Hraise.
  - rewrite Hupd; [| done | simpl; by left].
    unfold with_properties at 1. simpl.
    assert (Hk : k' ∉ seen.*1).
    { rewrite fmap_app in Hnd. apply NoDup_app in Hnd as (_ & Hdis & _).
      intros Hin. apply (Hdis k' Hin). simpl. by left. }
    rewrite dict_set_middle by done.
    specialize (IH (seen ++ [(k', f q)])).
    rewrite <- !app_assoc in IH. simpl in IH.
    unfold with_properties in IH. rewrite IH.
    + reflexivity.
    + intros d q' Hd Hq. apply Hupd; [done |]. simpl. by right.
    + exact Hraise.
    + repeat (rewrite ?fmap_app, ?fmap_cons in Hnd |- *; simpl in Hnd |- *).
      exact Hnd.
Qed.

Section FullRefresh.
Context `{Externals} `{PropertyClasses}.

(** X19: when the fetches of a cycle succeed and every property's [update]
    returns, the cycle refreshes every property exactly once, in insertion
    order, with the snapshots of that cycle, and goes on to the next cycle;
    a plug whose status does not list the energy meter passes [None] as
    the energy snapshot without fetching one. *)
Theorem poll_refreshes_all (kd : kyla_dev) (dev : device)
    (sysinfo emeter : pyval) (f : property -> property) :
  sys_info kd = Ok sysinfo ->
  sysinfo <> VNone ->
  NoDup (property_names dev) ->
  (forall hm,
      AztechPlug.has_emeter sysinfo = Ok hm ->
      (if hm : bool then get_emeter_realtime kd = Ok emeter
       else emeter = VNone) ->
      (forall d p, index d = index dev -> p ∈ (properties dev).*2 ->
                   plug_update d p sysinfo emeter = Ok (f p)) ->
      AztechPlug.poll_cycle kd dev
      = (with_properties dev (prod_map id f <$> properties dev),
         [EvSleep _POLL_INTERVAL; EvSysInfo]
           ++ (if hm then [EvEmeter] else [])
           ++ (EvUpdate <$> property_names dev),
         NextCycle)) /\
  (forall state,
      get_emeter_realtime kd = Ok emeter ->
      get_light_state kd = Ok state ->
      (forall d p, index d = index dev -> p ∈ (properties dev).*2 ->
                   bulb_update d p sysinfo state emeter = Ok (f p)) ->
      AztechBulb.poll_cycle kd dev
      = (with_properties dev (prod_map id f <$> properties dev),
         [EvSleep _POLL_INTERVAL; EvSysInfo; EvEmeter; EvLightState]
           ++ (EvUpdate <$> property_names dev),
         NextCycle)).
Proof.
  intros Hsys Hnn Hnd.
  assert (Hdev : dev = with_properties dev ([] ++ properties dev))
    by (by destruct dev).
  split.
  - intros hm Hhm Hem Hupd. unfold AztechPlug.poll_cycle.
    rewrite Hsys, Hhm.
    pose proof (update_all_map (fun d p => plug_update d p sysinfo emeter)
                  f dev (properties dev) [] Hupd Hnd) as Hall.
    rewrite <- Hdev in Hall. simpl in Hall.
    destruct hm.
    + rewrite Hem, Hall. by destruct sysinfo.
    + subst emeter. rewrite Hall. by destruct sysinfo.
  - intros state Hem Hst Hupd. unfold AztechBulb.poll_cycle.
    rewrite Hsys, Hem, Hst.
    pose proof (update_all_map
                  (fun d p => bulb_update d p sysinfo state emeter)
                  f dev (properties dev) [] Hupd Hnd) as Hall.
    rewrite <- Hdev in Hall. simpl in Hall.
    rewrite Hall. by destruct sysinfo.
Qed.

(** X18: a cycle stops at the first property whose [update] raises.  When the
    fetches succeed, the properties before it are refreshed in insertion
    order, each once, and keep their new values; the [update] of the
    failing property is the last one called; that property and all the
    properties after it are left as they were; and the exception decides
    how the cycle ends: the communication error leads to the next cycle,
    any other exception leaves the loop. *)
Theorem poll_stops_at_failing_update (kd : kyla_dev) (dev : device)
    (sysinfo emeter : pyval) (f : property -> property)
    (before after : list (string * property)) (k : string) (p : property)
    (e : exn) :
  sys_info kd = Ok sysinfo ->
  sysinfo <> VNone ->
  NoDup (property_names dev) ->
  properties dev = before ++ (k, p) :: after ->
  (forall hm,
      AztechPlug.has_emeter sysinfo = Ok hm ->
      (if hm : bool then get_emeter_realtime kd = Ok emeter
       else emeter = VNone) ->
      (forall d q, index d = index dev -> q ∈ before.*2 ->
                   plug_update d q sysinfo emeter = Ok (f q)) ->
      (forall d, index d = index dev ->
                 plug_update d p sysinfo emeter = Raise e) ->
      AztechPlug.poll_cycle kd dev
      = (with_properties dev ((prod_map id f <$> before) ++ (k, p) :: after),
         [EvSleep _POLL_INTERVAL; EvSysInfo]
           ++ (if hm then [EvEmeter] else [])
           ++ (EvUpdate <$> before.*1 ++ [k]),
         handler e)) /\
  (forall state,
      get_emeter_realtime kd = Ok emeter ->
      get_light_state kd = Ok state ->
      (forall d q, index d = index dev -> q ∈ before.*2 ->
                   bulb_update d q sysinfo state emeter = Ok (f q)) ->
      (forall d, index d = index dev ->
                 bulb_update d p sysinfo state emeter = Raise e) ->
      AztechBulb.poll_cycle kd dev
      = (with_properties dev ((prod_map id f <$> before) ++ (k, p) :: after),
         [EvSleep _POLL_INTERVAL; EvSysInfo; EvEmeter; EvLightState]
           ++ (EvUpdate <$> before.*1 ++ [k]),
         handler e)) /\
  (handler e = NextCycle <-> e = SmartDeviceException) /\
  (e <> SmartDeviceException -> handler e = Escaped e).
Proof.
  intros Hsys Hnn Hnd Hprops.
  assert (Hdev : dev = with_properties dev ([] ++ before ++ (k, p) :: after))
    by (destruct dev; simpl in *; by subst).
  unfold property_names in Hnd. rewrite Hprops in Hnd.
  split; [| split; [| split]].
  - intros hm Hhm Hem Hupd Hraise. unfold AztechPlug.poll_cycle.
    rewrite Hsys, Hhm, Hprops.
    pose proof (update_all_stop (fun d q => plug_update d q sysinfo emeter)
                  f dev before after k p e [] Hupd Hraise Hnd) as Hall.
    rewrite <- Hdev in Hall. simpl in Hall.
    destruct hm.
    + rewrite Hem, Hall. by destruct sysinfo.
    + subst emeter. rewrite Hall. by destruct sysinfo.
  - intros state Hem Hst Hupd Hraise. unfold AztechBulb.poll_cycle.
    rewrite Hsys, Hem, Hst, Hprops.
    pose proof (update_all_stop
                  (fun d q => bulb_update d q sysinfo state emeter)
                  f dev before after k p e [] Hupd Hraise Hnd) as Hall.
    rewrite <- Hdev in Hall. simpl in Hall.
    rewrite Hall. by destruct sysinfo.
  - by destruct e.
  - by destruct e.
Qed.

End FullRefresh.

(** ** The colour mode stays within its enumeration *)

Section ColourModeEnum.
Context `{Externals}.

(** X10: the value of the colour-mode property of a constructed bulb is one of
    the values its metadata enumerates. *)
Theorem color_mode_in_enum (kd : kyla_dev) (idx : Z) (dev : device)
    (p : property) :
  AztechBulb.__init__ kd idx = Ok dev ->
  dict_get "colorMode" (properties dev) = Some p ->
  exists allowed,
    prop_description p !! "enum" = Some (VList allowed) /\
    prop_value p ∈ allowed.
Proof.
  intros Hinit Hp.
  apply bulb_init_inv in Hinit
    as (state & sysinfo & color & variable & rgb & lo & hi & t & mode
        & level & q & on & _ & _ & _ & _ & _ & _ & Hmode & _ & _
        & _ & _ & [_ _ _ _ Hm _ _]).
  rewrite Hm in Hp. destruct (color && variable); [| done].
  injection Hp as <-. exists [VStr "color"; VStr "temperature"].
  split; [reflexivity |].
  specialize (Hmode eq_refl). unfold AztechBulb.color_mode in Hmode.
  repeat inv_bind Hmode. simpl.
  destruct (x2 =? 0); injection Hmode as <-;
    rewrite !elem_of_cons; auto.
Qed.

End ColourModeEnum.

(** ** The further properties on the reference devices *)

Section FurtherExamples.
#[local] Existing Instances Reference.externals Reference.property_classes.
Import Reference.

Lemma device_naming_witness :
  AztechDevice.__init__ strip_handle 1
  = Ok {| _type := []; index := 1; name := VStr "Fan";
          description := VStr "HS107(US)"; properties := [] |}.
Proof.
  apply (proj2 (device_naming strip_handle 1 _)).
  exists strip_sysinfo, (VStr "HS107(US)"), (VStr "Fan").
  repeat split; reflexivity.
Defined.

Lemma constructed_naming_witness :
  sys_info strip_handle = Ok (VDict strip_sysinfo) /\
  AztechPlug.__init__ strip_handle 1 = Ok strip_device /\
  description strip_device = VStr "HS107(US)" /\
  name strip_device = VStr "Fan".
Proof.
  assert (Hsys : sys_info strip_handle = Ok (VDict strip_sysinfo))
    by reflexivity.
  assert (Hinit : AztechPlug.__init__ strip_handle 1 = Ok strip_device)
    by (vm_compute; reflexivity).
  split; [exact Hsys |]. split; [exact Hinit |].
  destruct (constructed_naming strip_handle 1 strip_device strip_sysinfo
              Hsys (or_introl Hinit))
    as (model & alias & Hm & Ha & -> & ->).
  vm_compute in Hm. injection Hm as <-.
  vm_compute in Ha. injection Ha as <-. split; reflexivity.
Defined.

Lemma plug_reads_witness :
  AztechPlug.__init__
    {| sys_info := Ok (VDict switch_sysinfo);
       get_emeter_realtime := Ok (VDict plug_emeter);
       get_light_state := Ok (VDict bulb_state);
       valid_temperature_range := Ok VNone |} (-1)
  = AztechPlug.__init__ switch_handle (-1).
Proof.
  apply plug_reads; [reflexivity |].
  intros sysinfo [= <-] Hlisted. vm_compute in Hlisted. discriminate.
Defined.


Lemma bulb_capabilities_witness :
  sys_info bulb_handle = Ok (VDict bulb_sysinfo) /\
  AztechBulb.__init__ bulb_handle (-1) = Ok bulb_device /\
  is_Some (dict_get "colorTemperature" (properties bulb_device)) /\
  "ColorControl" ∈ _type bulb_device.
Proof.
  assert (Hsys : sys_info bulb_handle = Ok (VDict bulb_sysinfo))
    by reflexivity.
  assert (Hinit : AztechBulb.__init__ bulb_handle (-1) = Ok bulb_device)
    by (vm_compute; reflexivity).
  split; [exact Hsys |]. split; [exact Hinit |].
  destruct (bulb_capabilities bulb_handle (-1) bulb_device bulb_sysinfo
              Hsys Hinit) as (_ & Ht & _ & Hcc & _).
  split.
  - apply Ht. exists (VInt 1). split; reflexivity.
  - apply Hcc. left. exists (VInt 1). split; reflexivity.
Defined.

Lemma bulb_energy_witness :
  AztechBulb.__init__ bulb_handle (-1) = Ok bulb_device /\
  "EnergyMonitor" ∈ _type bulb_device /\
  ~ is_Some (dict_get "voltage" (properties bulb_device)).
Proof.
  assert (Hinit : AztechBulb.__init__ bulb_handle (-1) = Ok bulb_device)
    by (vm_compute; reflexivity).
  split; [exact Hinit |].
  destruct (bulb_energy bulb_handle (-1) bulb_device Hinit)
    as (e & p & v & c & He & Hp & Hv & _ & Htag & _ & Hvol & _).
  vm_compute in He. injection He as <-.
  vm_compute in Hp. injection Hp as <-.
  vm_compute in Hv. injection Hv as <-.
  split; [by apply Htag |]. rewrite Hvol. by intros Hne.
Defined.

Lemma bulb_switch_witness :
  AztechBulb.__init__ bulb_handle (-1) = Ok bulb_device /\
  dict_get "on" (properties bulb_device)
  = Some (stored "on" on_description (VBool false)).
Proof.
  assert (Hinit : AztechBulb.__init__ bulb_handle (-1) = Ok bulb_device)
    by (vm_compute; reflexivity).
  split; [exact Hinit |].
  destruct (bulb_switch bulb_handle (-1) bulb_device Hinit)
    as (st & flag & rest & Hst & Hflag & Hon & _).
  vm_compute in Hst. injection Hst as <-.
  vm_compute in Hflag. injection Hflag as <-. exact Hon.
Defined.

Lemma construction_layout_witness :
  AztechPlug.__init__ plug_handle (-1) = Ok plug_device /\
  NoDup (property_names plug_device) /\
  exists optional, property_names plug_device = optional ++ ["on"; "led-on"].
Proof.
  assert (Hinit : AztechPlug.__init__ plug_handle (-1) = Ok plug_device)
    by (vm_compute; reflexivity).
  split; [exact Hinit |].
  destruct (proj1 (construction_layout plug_handle (-1) plug_device) Hinit)
    as (_ & _ & _ & Hlast & _ & Hnd).
  split; [exact Hnd | exact Hlast].
Defined.

Lemma plain_relay_witness :
  AztechPlug.__init__ switch_handle (-1) =
  Ok {| _type := ["OnOffSwitch"]; index := -1; name := VStr "Porch";
        description := VStr "HS200(US)";
        properties :=
          [("on", stored "on" on_description (VBool false));
           ("led-on", stored "led-on" AztechPlug.led_description
                        (VBool true))] |}.
Proof.
  apply (plain_relay switch_handle (-1) switch_sysinfo
           (VStr "HS200(US)") (VStr "Porch") (VInt 0) (VInt 0) "TIM"
           (Some "Wi-Fi Smart Light Switch") 0);
    try reflexivity.
  intros Hin. apply list_elem_of_singleton in Hin. discriminate.
Defined.

Lemma poll_ends_on_other_exception_witness :
  KeyError <> SmartDeviceException /\
  sys_info bulb_handle = Ok (VDict bulb_sysinfo) /\
  bulb_sysinfo !! "feature" = None /\
  AztechPlug.poll [bulb_handle; plug_handle] plug_device
  = (plug_device, [EvSleep 5; EvSysInfo], Some KeyError).
Proof.
  assert (He : KeyError <> SmartDeviceException) by discriminate.
  split; [exact He |]. split; [reflexivity |]. split; [reflexivity |].
  destruct (poll_ends_on_other_exception bulb_handle [plug_handle]
              plug_device KeyError He) as (_ & _ & Hfeat).
  apply (Hfeat bulb_sysinfo); reflexivity.
Defined.

Lemma has_emeter_tokens_witness :
  plug_sysinfo !! "feature" = Some (VStr (str_join ":" ["TIM"; "ENE"])) /\
  AztechPlug.has_emeter (VDict plug_sysinfo) = Ok true.
Proof.
  split; [reflexivity |].
  destruct (has_emeter_tokens plug_sysinfo) as (Htok & _).
  rewrite (Htok ["TIM"; "ENE"]); [reflexivity | discriminate | | reflexivity].
  repeat constructor.
Defined.

Lemma outlet_out_of_range_witness :
  sys_info strip_handle = Ok (VDict strip_sysinfo) /\
  AztechPlug.__init__ strip_handle 2 = Raise IndexError.
Proof.
  split; [reflexivity |].
  destruct (outlet_out_of_range strip_handle 2 strip_sysinfo
              (VStr "HS107(US)")) as (Hrange & _);
    [reflexivity | reflexivity | lia |].
  eapply Hrange; [reflexivity | simpl; lia].
Defined.

Lemma hsv_scaling_witness :
  bulb_state !! "on_off" = Some (VInt 0) /\
  AztechBulb.hsv (VDict bulb_state) = Ok (VInt 120, VInt 50, 204) /\
  AztechBulb.brightness (VDict bulb_state) = Ok 80.
Proof.
  split; [reflexivity |].
  destruct (hsv_scaling bulb_state (VInt 0)
              {[ "hue" := VInt 120; "saturation" := VInt 50;
                 "brightness" := VInt 80; "color_temp" := VInt 0 ]}
              (VInt 120) (VInt 50) 80) as (Hhsv & _ & Hbr);
    [reflexivity | reflexivity | reflexivity | reflexivity | reflexivity
    | lia |].
  split; [exact Hhsv | exact Hbr].
Defined.

Lemma off_without_default_witness :
  AztechBulb.brightness (VDict {[ "on_off" := VInt 0; "brightness" := VInt 40 ]})
  = Raise KeyError.
Proof.
  destruct (off_without_default
              {[ "on_off" := VInt 0; "brightness" := VInt 40 ]} (VInt 0))
    as (_ & _ & _ & _ & Hbr & _); [reflexivity | reflexivity | reflexivity |].
  exact Hbr.
Defined.

Lemma extraction_errors_witness :
  AztechDevice.power (VDict {[ "power_mw" := VNone ]}) = Raise TypeError.
Proof.
  destruct extraction_errors as (_ & Hmilli & _).
  destruct (Hmilli {[ "power_mw" := VNone ]} VNone eq_refl) as (Hp & _).
  apply Hp; reflexivity.
Defined.

Lemma poll_refreshes_all_witness :
  exists props,
    AztechPlug.poll_cycle switch_handle switch_device
    = (with_properties switch_device props,
       [EvSleep 5; EvSysInfo; EvUpdate "on"; EvUpdate "led-on"],
       NextCycle).
Proof.
  set (f := fun p => match plug_update_model switch_device p
                              (VDict switch_sysinfo) VNone with
                     | Ok p' => p'
                     | Raise _ => p
                     end).
  assert (Hprops : (properties switch_device).*2
                   = [stored "on" on_description (VBool false);
                      stored "led-on" AztechPlug.led_description (VBool true)])
    by (vm_compute; reflexivity).
  assert (Hsame : forall d p s e,
             index d = index switch_device ->
             plug_update_model d p s e = plug_update_model switch_device p s e).
  { intros d p s e Hd. unfold plug_update_model. by rewrite Hd. }
  destruct (poll_refreshes_all switch_handle switch_device
              (VDict switch_sysinfo) VNone f) as (Hplug & _);
    [reflexivity | discriminate | |].
  - vm_compute. solve_NoDup.
  - eexists. apply (Hplug false); [reflexivity | reflexivity |].
    intros d p Hd Hp. rewrite Hprops in Hp.
    rewrite !elem_of_cons, elem_of_nil in Hp.
    change (plug_update d p (VDict switch_sysinfo) VNone)
      with (plug_update_model d p (VDict switch_sysinfo) VNone).
    rewrite (Hsame _ _ _ _ Hd).
    destruct Hp as [-> | [-> | []]]; vm_compute; reflexivity.
Defined.

Lemma poll_stops_at_failing_update_witness :
  sys_info ledless_handle = Ok (VDict ledless_sysinfo) /\
  ledless_sysinfo !! "led_off" = None /\
  properties switch_device
  = [("on", stored "on" on_description (VBool false));
     ("led-on", stored "led-on" AztechPlug.led_description (VBool true))] /\
  AztechPlug.poll_cycle ledless_handle switch_device
  = (with_properties switch_device
       [("on", stored "on" on_description (VBool true));
        ("led-on", stored "led-on" AztechPlug.led_description (VBool true))],
     [EvSleep 5; EvSysInfo; EvUpdate "on"; EvUpdate "led-on"],
     Escaped KeyError).
Proof.
  set (on := stored "on" on_description (VBool false)).
  set (led := stored "led-on" AztechPlug.led_description (VBool true)).
  set (f := fun q => with_value q (VBool true)).
  assert (Hprops : properties switch_device = [] ++ [("on", on)] ++ ("led-on", led) :: [])
    by (vm_compute; reflexivity).
  assert (Hsame : forall d q s e,
             index d = index switch_device ->
             plug_update_model d q s e = plug_update_model switch_device q s e).
  { intros d q s e Hd. unfold plug_update_model. by rewrite Hd. }
  split; [reflexivity |]. split; [reflexivity |]. split; [exact Hprops |].
  destruct (poll_stops_at_failing_update ledless_handle switch_device
              (VDict ledless_sysinfo) VNone f [("on", on)] [] "led-on" led
              KeyError) as (Hplug & _);
    [reflexivity | discriminate | | exact Hprops |].
  - vm_compute. solve_NoDup.
  - rewrite (Hplug false); [reflexivity | reflexivity | reflexivity | |].
    + intros d q Hd Hq. simpl in Hq.
      rewrite elem_of_cons, elem_of_nil in Hq.
      change (plug_update d q (VDict ledless_sysinfo) VNone)
        with (plug_update_model d q (VDict ledless_sysinfo) VNone).
      rewrite (Hsame _ _ _ _ Hd).
      destruct Hq as [-> | []]; vm_compute; reflexivity.
    + intros d Hd.
      change (plug_update d led (VDict ledless_sysinfo) VNone)
        with (plug_update_model d led (VDict ledless_sysinfo) VNone).
      rewrite (Hsame _ _ _ _ Hd). vm_compute. reflexivity.
Defined.

Lemma color_mode_in_enum_witness :
  AztechBulb.__init__ bulb_handle (-1) = Ok bulb_device /\
  dict_get "colorMode" (properties bulb_device)
  = Some (stored "colorMode" AztechBulb.color_mode_description (VStr "color")) /\
  VStr "color" ∈ [VStr "color"; VStr "temperature"].
Proof.
  assert (Hinit : AztechBulb.__init__ bulb_handle (-1) = Ok bulb_device)
    by (vm_compute; reflexivity).
  assert (Hp : dict_get "colorMode" (properties bulb_device)
               = Some (stored "colorMode" AztechBulb.color_mode_description
                         (VStr "color")))
    by (vm_compute; reflexivity).
  split; [exact Hinit |]. split; [exact Hp |].
  destruct (color_mode_in_enum bulb_handle (-1) bulb_device _ Hinit Hp)
    as (allowed & Henum & Hin).
  vm_compute in Henum. injection Henum as <-. exact Hin.
Defined.

End FurtherExamples.
